(** * estimations.py: the DoWhy estimator driver, embedded in Rocq

    The script is a short orchestration of calls into pandas, networkx,
    pickle and DoWhy.  Its own logic is control flow: which library calls
    are made, in which order, with which arguments, and which Python
    exceptions are caught where.  The embedding keeps exactly that:

    - the libraries are an interface ([Library]) of state transformers
      over an abstract library world, each returning a value or raising;
    - Python exceptions carry their root class, so that the clause
      [except Exception] can be told apart from a bare [except];
    - the script state threads the library world, the heap cell of the
      graph object, standard output and a log of the library calls;
    - a Python float is a [spec_float], and the format specification
      [.4f] is written out (correctly rounded, half to even). *)

From Stdlib Require Import String Ascii List ZArith Lia Bool QArith.
From Stdlib Require Import DecimalString.
From Stdlib Require Import SpecFloat.
Import ListNotations.
Local Close Scope Q_scope.
Local Open Scope string_scope.
Local Open Scope list_scope.

(** ** Python exceptions *)

Module Py.

(** The direct children of [BaseException]; everything an estimator
    ordinarily raises ([ValueError], [KeyError], [LinAlgError],
    [TypeError], ...) sits below [Exception]. *)
Inductive root_class : Type :=
| Exception
| KeyboardInterrupt
| SystemExit
| GeneratorExit
| OtherBaseException.

Record exn : Type := mkExn {
  exn_root : root_class;
  exn_type : string;
  exn_msg  : string
}.

(** [isinstance(e, Exception)], the test of the clause [except Exception]. *)
Definition is_Exception (e : exn) : bool :=
  match exn_root e with
  | Exception => true
  | _ => false
  end.

Inductive Res (A : Type) : Type :=
| Ok (a : A)
| Raise (e : exn).

Arguments Ok {A} a.
Arguments Raise {A} e.

End Py.
Import Py.

(** ** Python floats and the format specification [.4f] *)

Module PyFloat.

Definition float : Type := spec_float.

(** [float("nan")] *)
Definition nan : float := S754_nan.

(** The literal [0.5] as a binary64 value. *)
Definition half : float := S754_finite false 4503599627370496 (-53).

Definition is_finite (x : float) : bool :=
  match x with
  | S754_zero _ | S754_finite _ _ _ => true
  | _ => false
  end.

(** The rational a finite float denotes (0 for the others). *)
Definition to_Q (x : float) : Q :=
  match x with
  | S754_finite s m e =>
      let mag := if (0 <=? e)%Z
                 then inject_Z (Zpos m * 2 ^ e)
                 else Qmake (Zpos m) (Z.to_pos (2 ^ (- e))) in
      if s then Qopp mag else mag
  | _ => 0%Q
  end.

(** [|x| * 10^4] rounded to the nearest integer, ties to even: the
    digits that the correctly rounded conversion of [.4f] prints. *)
Definition scaled4 (m : positive) (e : Z) : Z :=
  if (0 <=? e)%Z then Zpos m * 2 ^ e * 10000
  else
    let d := (2 ^ (- e))%Z in
    let n := (Zpos m * 10000)%Z in
    let q := (n / d)%Z in
    let r := (n mod d)%Z in
    if (2 * r <? d)%Z then q
    else if (d <? 2 * r)%Z then (q + 1)%Z
    else if Z.even q then q else (q + 1)%Z.

Definition digit (d : Z) : ascii := ascii_of_nat (48 + Z.to_nat (d mod 10)).

Definition is_digit (c : ascii) : bool :=
  let n := nat_of_ascii c in (48 <=? n)%nat && (n <=? 57)%nat.

Fixpoint all_digits (s : string) : bool :=
  match s with
  | EmptyString => true
  | String c r => is_digit c && all_digits r
  end.

(** Decimal numeral of a natural number, no leading zeros, ["0"] for 0. *)
Definition decimal (n : Z) : string :=
  NilZero.string_of_uint (N.to_uint (Z.to_N n)).

(** The four digits after the decimal point. *)
Definition frac4 (n : Z) : string :=
  String (digit (n / 1000))
    (String (digit (n / 100))
       (String (digit (n / 10))
          (String (digit n) EmptyString))).

Definition fixed4 (neg : bool) (n : Z) : string :=
  (if neg then "-" else "") ++ decimal (n / 10000) ++ "." ++ frac4 (n mod 10000).

(** [format(x, ".4f")] *)
Definition format_4f (x : float) : string :=
  match x with
  | S754_nan => "nan"
  | S754_infinity s => if s then "-inf" else "inf"
  | S754_zero s => fixed4 s 0
  | S754_finite s m e => fixed4 s (scaled4 m e)
  end.

(** [format(s, "<w")]: left-aligned in a field of width [w], padded with
    spaces on the right, never truncated. *)
Definition spaces (n : nat) : string := string_of_list_ascii (repeat " "%char n).

Definition ljust (w : nat) (s : string) : string :=
  s ++ spaces (w - String.length s).

(** The text before the first point of [s], and the text after it. *)
Fixpoint split_dot (s : string) : option (string * string) :=
  match s with
  | EmptyString => None
  | String c r =>
      if Ascii.eqb c "." then Some (EmptyString, r)
      else match split_dot r with
           | Some (a, b) => Some (String c a, b)
           | None => None
           end
  end.

Definition unsigned_four_decimals (s : string) : bool :=
  match split_dot s with
  | Some (i, f) =>
      negb (String.eqb i "") && all_digits i && all_digits f
      && Nat.eqb (String.length f) 4
  | None => false
  end.

(** A numeral with exactly four decimal places: an optional sign, one
    digit or more, a point, four digits. *)
Definition four_decimals (s : string) : bool :=
  match s with
  | EmptyString => false
  | String c r =>
      if Ascii.eqb c "-" then unsigned_four_decimals r
      else unsigned_four_decimals s
  end.

End PyFloat.
Import PyFloat.

(** ** Python dictionaries with string keys

    A [dict] keeps its keys in insertion order, and [items()] yields them
    in that order; assigning to a key that is present replaces its value
    in place. *)

Module Dict.

Definition dict (V : Type) : Type := list (string * V).

Definition empty {V} : dict V := [].

Fixpoint set {V} (d : dict V) (k : string) (v : V) : dict V :=
  match d with
  | [] => [(k, v)]
  | (k', v') :: rest =>
      if String.eqb k' k then (k, v) :: rest else (k', v') :: set rest k v
  end.

Fixpoint get {V} (d : dict V) (k : string) : option V :=
  match d with
  | [] => None
  | (k', v') :: rest => if String.eqb k' k then Some v' else get rest k
  end.

Definition keys {V} (d : dict V) : list string := map fst d.

Definition items {V} (d : dict V) : list (string * V) := d.

(** What [set] does to the list of keys. *)
Fixpoint add_key (ks : list string) (k : string) : list string :=
  match ks with
  | [] => [k]
  | k' :: rest => if String.eqb k' k then k' :: rest else k' :: add_key rest k
  end.

End Dict.

(** ** The libraries the script calls

    Nothing of pandas, networkx, pickle, DoWhy or [structure_data] is part
    of the script.  Each call is a transformer of the library world [W]
    (files, random state, library internals) that returns a value or
    raises.  The graph reaches the libraries in one call only,
    [to_pydot], which reads it. *)

(** The keyword arguments of [preprocess_data] at its call site. *)
Record PreprocessOptions : Type := mkOptions {
  na_threshold : float;
  impute_strategy : string;
  treatment_dichotomize_value : string;
  treatment_column : string
}.

Record Library : Type := mkLibrary {
  W : Type;
  DataFrame : Type;
  DiGraph : Type;
  Dot : Type;
  File : Type;
  CausalModel : Type;
  Estimand : Type;
  CausalEstimate : Type;
  PyObj : Type;
  (** [Path(__file__).resolve().parent] *)
  ROOT : string;
  (** [structure_data.choose_columns()] *)
  choose_columns : W -> Res DataFrame * W;
  (** [structure_data.preprocess_data(df, **options)] *)
  preprocess_data : DataFrame -> PreprocessOptions -> W -> Res DataFrame * W;
  (** [open(path, "rb")] *)
  open_rb : string -> W -> Res File * W;
  (** [pickle.load(f)] *)
  pickle_load : File -> W -> Res DiGraph * W;
  (** leaving the [with] block closes the file *)
  close : File -> W -> W;
  (** [nx.nx_pydot.to_pydot(graph)] *)
  to_pydot : DiGraph -> W -> Res Dot * W;
  (** [dot.to_string()] *)
  to_string : Dot -> W -> Res string * W;
  (** [CausalModel(data=, treatment=, outcome=, graph=)] *)
  new_CausalModel : DataFrame -> string -> string -> string -> W -> Res CausalModel * W;
  (** [model.identify_effect()] *)
  identify_effect : CausalModel -> W -> Res Estimand * W;
  (** [model.estimate_effect(estimand, method_name=m)] *)
  estimate_effect : CausalModel -> Estimand -> string -> W -> Res CausalEstimate * W;
  (** [est.value] *)
  value : CausalEstimate -> W -> Res PyObj * W;
  (** [float(x)] *)
  to_float : PyObj -> W -> Res float * W
}.

(** The estimator boundary of a library raises only below [Exception]. *)
Definition ordinary_failures (L : Library) : Prop :=
  (forall model estimand m w e w',
      estimate_effect L model estimand m w = (Raise e, w') -> is_Exception e = true)
  /\ (forall est w e w', value L est w = (Raise e, w') -> is_Exception e = true)
  /\ (forall x w e w', to_float L x w = (Raise e, w') -> is_Exception e = true).

Section Script.

Context {L : Library}.

(** A reference to a graph object on the heap. *)
Definition gref : Type := nat.

(** The library calls the script makes, with their arguments. *)
Inductive op : Type :=
| OpChooseColumns
| OpPreprocess (df : DataFrame L) (opts : PreprocessOptions)
| OpOpen (path : string)
| OpPickleLoad (f : File L)
| OpToPydot (graph : gref)
| OpToString (dot : Dot L)
| OpCausalModel (data : DataFrame L) (treatment outcome graph : string)
| OpIdentifyEffect (model : CausalModel L)
| OpEstimateEffect (model : CausalModel L) (estimand : Estimand L) (method_name : string)
| OpValue (est : CausalEstimate L)
| OpFloat (x : PyObj L).

(** The call log: a call is entered, and left by return or by raise. *)
Inductive event : Type :=
| Call (o : op)
| Return (o : op)
| Raised (o : op) (e : exn).

Record State : Type := mkState {
  world : W L;
  heap : list (DiGraph L);
  stdout : list string;
  trace : list event
}.

(** *** The monad of the script: state, and exceptions that keep it *)

Definition M (A : Type) : Type := State -> Res A * State.

Definition ret {A} (a : A) : M A := fun s => (Ok a, s).

Definition bind {A B} (c : M A) (k : A -> M B) : M B :=
  fun s =>
    match c s with
    | (Ok a, s') => k a s'
    | (Raise e, s') => (Raise e, s')
    end.

Definition raise {A} (e : exn) : M A := fun s => (Raise e, s).

(** [try: body / except Exception: handler] *)
Definition try_except_Exception {A} (body handler : M A) : M A :=
  fun s =>
    match body s with
    | (Ok a, s') => (Ok a, s')
    | (Raise e, s') => if is_Exception e then handler s' else (Raise e, s')
    end.

Definition log (ev : event) (s : State) : State :=
  mkState (world s) (heap s) (stdout s) (trace s ++ [ev]).

Definition set_world (w : W L) (s : State) : State :=
  mkState w (heap s) (stdout s) (trace s).

(** A library call: logged on entry and on exit, acting on the world only. *)
Definition call {A} (o : op) (f : W L -> Res A * W L) : M A :=
  fun s =>
    let s1 := log (Call o) s in
    match f (world s1) with
    | (Ok a, w') => (Ok a, log (Return o) (set_world w' s1))
    | (Raise e, w') => (Raise e, log (Raised o e) (set_world w' s1))
    end.

(** [print(line)] *)
Definition print (line : string) : M unit :=
  fun s => (Ok tt, mkState (world s) (heap s) (stdout s ++ [line]) (trace s)).

(** A new graph object on the heap. *)
Definition alloc (g : DiGraph L) : M gref :=
  fun s => (Ok (length (heap s)),
            mkState (world s) (heap s ++ [g]) (stdout s) (trace s)).

(** A Python name always refers to a live object; the model is total, and
    a reference outside the heap, which no run of [main] produces, raises
    this marker. *)
Definition dangling : exn := mkExn OtherBaseException "<dangling reference>" "".

Definition deref (r : gref) : M (DiGraph L) :=
  fun s =>
    match nth_error (heap s) r with
    | Some g => ret g s
    | None => raise dangling s
    end.

(** [with f: body]: the file is closed however the body ends. *)
Definition with_file {A} (f : File L) (body : M A) : M A :=
  fun s =>
    match body s with
    | (r, s') => (r, set_world (close L f (world s')) s')
    end.

End Script.

Arguments op : clear implicits.
Arguments event : clear implicits.
Arguments State : clear implicits.
Arguments M : clear implicits.

Declare Scope py_scope.
Delimit Scope py_scope with py.
Notation "x <- c ;; k" := (bind c (fun x => k))
  (at level 61, c at next level, right associativity) : py_scope.
Notation "c ;;; k" := (bind c (fun _ => k))
  (at level 61, right associativity) : py_scope.

(** ** The script *)

Section Program.

Context {L : Library}.
Local Open Scope py_scope.

Definition GRAPH_PATH : string := ROOT L ++ "/graphs/full_causal.gpickle".
Definition TREATMENT : string := "Y11_Q57".
Definition OUTCOME : string := "Y11_MWIndex".

(** The keyword arguments written at the call of [preprocess_data]. *)
Definition load_data_options : PreprocessOptions :=
  {| na_threshold := half;
     impute_strategy := "drop";
     treatment_dichotomize_value := "median";
     treatment_column := TREATMENT |}.

Definition load_data : M L (DataFrame L) :=
  df <- call OpChooseColumns (choose_columns L) ;;
  df <- call (OpPreprocess df load_data_options)
             (preprocess_data L df load_data_options) ;;
  ret df.

Definition load_graph : M L gref :=
  f <- call (OpOpen GRAPH_PATH) (open_rb L GRAPH_PATH) ;;
  with_file f
    (g <- call (OpPickleLoad f) (pickle_load L f) ;;
     alloc g).

Definition methods : list string :=
  [ "backdoor.propensity_score_matching";
    "backdoor.propensity_score_weighting";
    "backdoor.propensity_score_stratification";
    "backdoor.linear_regression" ].

Definition results_t : Type := Dict.dict float.

(** Lines 57-63: the model and the estimand, built before the loop. *)
Definition build_model (df : DataFrame L) (graph : gref)
  : M L (CausalModel L * Estimand L) :=
  g <- deref graph ;;
  dot <- call (OpToPydot graph) (to_pydot L g) ;;
  s <- call (OpToString dot) (to_string L dot) ;;
  model <- call (OpCausalModel df TREATMENT OUTCOME s)
                (new_CausalModel L df TREATMENT OUTCOME s) ;;
  estimand <- call (OpIdentifyEffect model) (identify_effect L model) ;;
  ret (model, estimand).

(** The right-hand side computed inside [try]: [float(est.value)] of the
    estimate of method [m]. *)
Definition attempt (model : CausalModel L) (estimand : Estimand L) (m : string)
  : M L float :=
  est <- call (OpEstimateEffect model estimand m) (estimate_effect L model estimand m) ;;
  x <- call (OpValue est) (value L est) ;;
  call (OpFloat x) (to_float L x).

(** Lines 72-76: one iteration of the loop. *)
Definition loop_body (model : CausalModel L) (estimand : Estimand L)
  (results : results_t) (m : string) : M L results_t :=
  try_except_Exception
    (v <- attempt model estimand m ;;
     ret (Dict.set results m v))
    (ret (Dict.set results m nan)).

(** Lines 71-76: [for m in methods]. *)
Fixpoint for_methods (model : CausalModel L) (estimand : Estimand L)
  (ms : list string) (results : results_t) : M L results_t :=
  match ms with
  | [] => ret results
  | m :: rest =>
      results' <- loop_body model estimand results m ;;
      for_methods model estimand rest results'
  end.

Definition estimate_effects (df : DataFrame L) (graph : gref) : M L results_t :=
  me <- build_model df graph ;;
  for_methods (fst me) (snd me) methods Dict.empty.

(** [f"  {name:<40} {val:.4f}"] *)
Definition report_line (name : string) (val : float) : string :=
  "  " ++ ljust 40 name ++ " " ++ format_4f val.

Definition header : string := "Estimation results (ATE):".

Fixpoint print_items (items : list (string * float)) : M L unit :=
  match items with
  | [] => ret tt
  | (name, val) :: rest => print (report_line name val) ;;; print_items rest
  end.

Definition main : M L unit :=
  df <- load_data ;;
  graph <- load_graph ;;
  results <- estimate_effects df graph ;;
  print header ;;;
  print_items (Dict.items results).

(** How the interpreter process ends: the script ran to its end, or an
    exception reached the top level. *)
Inductive termination : Type :=
| Exited (code : Z)
| Uncaught (e : exn).

(** [if __name__ == "__main__": main()] *)
Definition run_script (s : State L) : termination * State L :=
  match main s with
  | (Ok _, s') => (Exited 0, s')
  | (Raise e, s') => (Uncaught e, s')
  end.

(** A report on standard output: the header, then one line per method
    of the list, in its order, each the name left-aligned in forty
    columns and a value text that [allowed] admits. *)
Definition report_printed (allowed : string -> Prop) (s s' : State L) : Prop :=
  exists vs : list string,
    length vs = length methods
    /\ stdout s' = stdout s ++ "Estimation results (ATE):"
                     :: map (fun mv : string * string =>
                               ("  " ++ ljust 40 (fst mv) ++ " " ++ snd mv)%string)
                          (combine methods vs)
    /\ Forall allowed vs.

(** *** Reading the call log *)

Inductive phase : Type := Begin | End_.

(** The entries of the log that belong to [estimate_effect]. *)
Definition estimate_phase (ev : event L) : option (phase * string) :=
  match ev with
  | Call (OpEstimateEffect _ _ m) => Some (Begin, m)
  | Return (OpEstimateEffect _ _ m) => Some (End_, m)
  | Raised (OpEstimateEffect _ _ m) _ => Some (End_, m)
  | _ => None
  end.

Fixpoint estimate_log (tr : list (event L)) : list (phase * string) :=
  match tr with
  | [] => []
  | ev :: rest =>
      match estimate_phase ev with
      | Some p => p :: estimate_log rest
      | None => estimate_log rest
      end
  end.

(** The log of methods run one after the other, each begun and ended. *)
Definition sequential (ms : list string) : list (phase * string) :=
  flat_map (fun m => [(Begin, m); (End_, m)]) ms.

Definition is_call_of (p : op L -> bool) (ev : event L) : bool :=
  match ev with
  | Call o => p o
  | _ => false
  end.

Definition is_CausalModel (o : op L) : bool :=
  match o with OpCausalModel _ _ _ _ => true | _ => false end.
Definition is_IdentifyEffect (o : op L) : bool :=
  match o with OpIdentifyEffect _ => true | _ => false end.
Definition is_PickleLoad (o : op L) : bool :=
  match o with OpPickleLoad _ => true | _ => false end.

(** How many calls of the given kind the log holds. *)
Definition calls (p : op L -> bool) (tr : list (event L)) : nat :=
  length (filter (is_call_of p) tr).

(** How a call is left, as the log records it. *)
Definition ending {A} (o : op L) (r : Res A) : event L :=
  match r with
  | Ok _ => Return o
  | Raise e => Raised o e
  end.

(** What a stretch of the log holds: the estimator entries [el], and no
    call of a kind that the predicate [outside] singles out. *)
Record stretch (s s' : State L) (el : list (phase * string))
  (outside : (op L -> bool) -> Prop) : Prop := mkStretch {
  st_heap : heap s' = heap s;
  st_stdout : stdout s' = stdout s;
  st_log : estimate_log (trace s') = estimate_log (trace s) ++ el;
  st_calls : forall p, outside p -> calls p (trace s') = calls p (trace s)
}.

(** The calls inside the [try] block. *)
Definition in_boundary (o : op L) : bool :=
  match o with
  | OpEstimateEffect _ _ _ | OpValue _ | OpFloat _ => true
  | _ => false
  end.

(** The calls of lines 57-63. *)
Definition in_build (o : op L) : bool :=
  match o with
  | OpToPydot _ | OpToString _ | OpCausalModel _ _ _ _ | OpIdentifyEffect _ => true
  | _ => false
  end.

(** The calls of [load_data]. *)
Definition in_load (o : op L) : bool :=
  match o with
  | OpChooseColumns | OpPreprocess _ _ => true
  | _ => false
  end.

(** A kind of call [p] that none of the calls in [ops] is of. *)
Definition avoids (ops p : op L -> bool) : Prop :=
  forall o, ops o = true -> p o = false.

(** The state [main] ends in when the three stages return. *)
Definition reported (results : results_t) (s : State L) : State L :=
  mkState (world s) (heap s)
    (stdout s ++ header :: map (fun nv => report_line (fst nv) (snd nv)) results)
    (trace s).

End Program.

(** *** The calls of a log, and the arguments of the estimator calls *)

Section Reading.

Context {L : Library}.

(** The library calls entered, in the order of the log. *)
Fixpoint called (tr : list (event L)) : list (op L) :=
  match tr with
  | [] => []
  | Call o :: rest => o :: called rest
  | _ :: rest => called rest
  end.

(** The model, the estimand and the method name of each call of
    [estimate_effect], in the order of the log. *)
Fixpoint estimate_args (tr : list (event L))
  : list (CausalModel L * Estimand L * string) :=
  match tr with
  | [] => []
  | Call (OpEstimateEffect model estimand m) :: rest =>
      (model, estimand, m) :: estimate_args rest
  | _ :: rest => estimate_args rest
  end.

(** The rest of [main] once the model and the estimand are built: the
    loop, then the report. *)
Definition estimate_and_report (model : CausalModel L) (estimand : Estimand L)
  : M L unit :=
  bind (for_methods model estimand methods Dict.empty)
       (fun results => bind (print header) (fun _ => print_items (Dict.items results))).

End Reading.

(** ** A concrete library, to run the script on

    The world counts the library calls made; a [Scenario] says which calls
    fail and what each method's estimate is ([None] is an estimate whose
    [value] is [None], on which [float] raises [TypeError]). *)

Module Demo.

Record Scenario : Type := mkScenario {
  sc_choose_columns : option exn;
  sc_preprocess : option exn;
  sc_open : option exn;
  sc_pickle : option exn;
  sc_model : option exn;
  sc_identify : option exn;
  sc_estimate : string -> Res (option float)
}.

Definition outcome {A} (fail : option exn) (a : A) (w : nat) : Res A * nat :=
  match fail with
  | Some e => (Raise e, S w)
  | None => (Ok a, S w)
  end.

Definition TypeError : exn :=
  mkExn Exception "TypeError" "float() argument must be a string or a real number".
Definition LinAlgError : exn := mkExn Exception "LinAlgError" "Singular matrix".
Definition KeyError : exn := mkExn Exception "KeyError" "Y11_Q57".
Definition FileNotFoundError : exn := mkExn Exception "FileNotFoundError" "full_causal.gpickle".
Definition Interrupt : exn := mkExn KeyboardInterrupt "KeyboardInterrupt" "".

Definition lib (sc : Scenario) : Library :=
  {| W := nat;
     DataFrame := list string;
     DiGraph := list (string * string);
     Dot := list (string * string);
     File := string;
     CausalModel := unit;
     Estimand := unit;
     CausalEstimate := option float;
     PyObj := option float;
     ROOT := "/srv/eqls";
     choose_columns := outcome (sc_choose_columns sc)
                         ["Y11_Q57"; "Y11_MWIndex"; "Y11_Agecategory"];
     preprocess_data := fun df _ => outcome (sc_preprocess sc) df;
     open_rb := fun path => outcome (sc_open sc) path;
     pickle_load := fun _ => outcome (sc_pickle sc)
                     [("Y11_Agecategory", "Y11_Q57"); ("Y11_Agecategory", "Y11_MWIndex");
                      ("Y11_Q57", "Y11_MWIndex")];
     close := fun _ w => S w;
     to_pydot := fun g w => (Ok g, S w);
     to_string := fun _ w => (Ok "digraph G {}", S w);
     new_CausalModel := fun _ _ _ _ => outcome (sc_model sc) tt;
     identify_effect := fun _ => outcome (sc_identify sc) tt;
     estimate_effect := fun _ _ m w => (sc_estimate sc m, S w);
     value := fun est w => (Ok est, S w);
     to_float := fun x w =>
       match x with
       | Some v => (Ok v, S w)
       | None => (Raise TypeError, S w)
       end |}.

Definition init (sc : Scenario) : State (lib sc) :=
  @mkState (lib sc) 0%nat [] [] [].

Definition quarter : float := S754_finite false 1 (-2).

(** Every call succeeds. *)
Definition all_fine : Scenario :=
  mkScenario None None None None None None (fun _ => Ok (Some quarter)).

(** Matching fails numerically, stratification has no value, the other
    two succeed. *)
Definition two_fail : Scenario :=
  mkScenario None None None None None None
    (fun m =>
       if String.eqb m "backdoor.propensity_score_matching" then Raise LinAlgError
       else if String.eqb m "backdoor.propensity_score_stratification" then Ok None
       else Ok (Some quarter)).

(** Every method fails. *)
Definition all_fail : Scenario :=
  mkScenario None None None None None None (fun _ => Raise KeyError).

(** The run is interrupted during the second method. *)
Definition interrupted : Scenario :=
  mkScenario None None None None None None
    (fun m =>
       if String.eqb m "backdoor.propensity_score_weighting" then Raise Interrupt
       else Ok (Some quarter)).

(** The weighting estimate overflows to infinity. *)
Definition overflow : Scenario :=
  mkScenario None None None None None None
    (fun m =>
       if String.eqb m "backdoor.propensity_score_weighting"
       then Ok (Some (S754_infinity false))
       else Ok (Some quarter)).

Definition no_graph_file : Scenario :=
  mkScenario None None (Some FileNotFoundError) None None None (fun _ => Ok (Some quarter)).

Definition bad_columns : Scenario :=
  mkScenario None (Some KeyError) None None None None (fun _ => Ok (Some quarter)).

Definition bad_model : Scenario :=
  mkScenario None None None None (Some KeyError) None (fun _ => Ok (Some quarter)).

Definition bad_identify : Scenario :=
  mkScenario None None None None None (Some KeyError) (fun _ => Ok (Some quarter)).

(** The table and the state [main] has reached when the data and the
    graph are loaded; the graph is at reference 0. *)
Definition frame (sc : Scenario) : DataFrame (lib sc) :=
  ["Y11_Q57"; "Y11_MWIndex"; "Y11_Agecategory"].

Definition ready (sc : Scenario) : State (lib sc) :=
  snd (load_graph (snd (load_data (init sc)))).

Definition no_raise {L : Library} (ev : event L) : bool :=
  match ev with
  | Raised _ _ => false
  | _ => true
  end.

End Demo.

(** ** The format on sample values *)

Example format_examples :
  format_4f half = "0.5000"
  /\ format_4f (S754_finite true 1 (-5)) = "-0.0312"
  /\ format_4f (S754_finite false 3 (-5)) = "0.0938"
  /\ format_4f (S754_finite false 5 2) = "20.0000"
  /\ format_4f (S754_zero true) = "-0.0000"
  /\ format_4f nan = "nan"
  /\ ljust 5 "ab" = "ab   "
  /\ ljust 1 "ab" = "ab".
Proof. repeat split; reflexivity. Qed.

(** ** Basic facts: lists, the log, the monad *)

Section Facts.

Context {L : Library}.
Local Open Scope py_scope.

Lemma estimate_log_app (a b : list (event L)) :
  estimate_log (a ++ b) = estimate_log a ++ estimate_log b.
Proof.
  induction a as [|ev a IH]; simpl; [reflexivity|].
  destruct (estimate_phase ev); simpl; now rewrite IH.
Qed.

Lemma calls_app (p : op L -> bool) (a b : list (event L)) :
  calls p (a ++ b) = calls p a + calls p b.
Proof. unfold calls. now rewrite filter_app, length_app. Qed.

Lemma sequential_app (a b : list string) :
  sequential (a ++ b) = sequential a ++ sequential b.
Proof. unfold sequential. apply flat_map_app. Qed.

Lemma call_inv {A} (o : op L) (f : W L -> Res A * W L) s r s' :
  call o f s = (r, s') ->
  f (world s) = (r, world s')
  /\ heap s' = heap s
  /\ stdout s' = stdout s
  /\ trace s' = trace s ++ [Call o; ending o r].
Proof.
  unfold call; simpl.
  destruct (f (world s)) as [[a|e] w'] eqn:Hf; intros H; inversion H; subst; clear H;
    simpl; rewrite <- app_assoc; simpl; auto.
Qed.

Lemma call_eq {A} (o : op L) (f : W L -> Res A * W L) s r w' :
  f (world s) = (r, w') ->
  call o f s = (r, mkState w' (heap s) (stdout s) (trace s ++ [Call o; ending o r])).
Proof.
  intros Hf. unfold call; simpl. rewrite Hf.
  destruct r; unfold log, set_world; simpl; rewrite <- app_assoc; reflexivity.
Qed.

Lemma bind_inv {A B} (c : M L A) (k : A -> M L B) s r s' :
  bind c k s = (r, s') ->
  (exists a s1, c s = (Ok a, s1) /\ k a s1 = (r, s'))
  \/ (exists e, c s = (Raise e, s') /\ r = Raise e).
Proof.
  unfold bind. destruct (c s) as [[a|e] s1] eqn:Hc; intros H.
  - left; eauto.
  - right; inversion H; subst; eauto.
Qed.

Lemma bind_ok {A B} (c : M L A) (k : A -> M L B) s a s1 :
  c s = (Ok a, s1) -> bind c k s = k a s1.
Proof. intros H; unfold bind; now rewrite H. Qed.

Lemma bind_raise {A B} (c : M L A) (k : A -> M L B) s e s1 :
  c s = (Raise e, s1) -> bind c k s = (Raise e, s1).
Proof. intros H; unfold bind; now rewrite H. Qed.

Lemma stretch_refl (s : State L) outside : stretch s s [] outside.
Proof. split; auto. now rewrite app_nil_r. Qed.

Lemma stretch_trans (s1 s2 s3 : State L) el1 el2 outside :
  stretch s1 s2 el1 outside -> stretch s2 s3 el2 outside ->
  stretch s1 s3 (el1 ++ el2) outside.
Proof.
  intros [h1 o1 l1 c1] [h2 o2 l2 c2]. split.
  - congruence.
  - congruence.
  - rewrite l2, l1. now rewrite app_assoc.
  - intros p Hp. rewrite (c2 p Hp). auto.
Qed.

Lemma stretch_weaken (s s' : State L) el (P Q : (op L -> bool) -> Prop) :
  (forall p, Q p -> P p) -> stretch s s' el P -> stretch s s' el Q.
Proof. intros HPQ [h o l c]. split; auto. Qed.

End Facts.

(** ** Proof steps used more than once *)

Ltac counts_done :=
  repeat split; try lia; intros; try discriminate; try (split; lia).

Ltac log_calc :=
  simpl; rewrite ?estimate_log_app, ?calls_app; unfold calls; simpl;
  rewrite ?app_nil_r; try reflexivity; try lia.

(** ** What each function of the script does to the state *)

Section Specs.

Context {L : Library}.
Local Open Scope py_scope.

Lemma call_stretch {A} (o : op L) (f : W L -> Res A * W L) s r s' :
  call o f s = (r, s') ->
  stretch s s' (estimate_log [Call o; ending o r]) (fun p => p o = false).
Proof.
  intros H. destruct (call_inv _ _ _ _ _ H) as (_ & Hh & Ho & Ht).
  split; auto.
  - now rewrite Ht, estimate_log_app.
  - intros p Hp. rewrite Ht, calls_app. unfold calls at 2; simpl.
    rewrite Hp. destruct r; simpl; lia.
Qed.

Lemma call_stretch_in {A} (ops : op L -> bool) (o : op L)
  (f : W L -> Res A * W L) s r s' :
  ops o = true ->
  call o f s = (r, s') ->
  stretch s s' (estimate_log [Call o; ending o r]) (avoids ops).
Proof.
  intros Ho H. eapply stretch_weaken; [|eapply call_stretch; eassumption].
  intros p Hp. now apply Hp.
Qed.

Lemma attempt_stretch (model : CausalModel L) (estimand : Estimand L) m s r s' :
  attempt model estimand m s = (r, s') ->
  stretch s s' [(Begin, m); (End_, m)] (avoids in_boundary).
Proof.
  unfold attempt. intros H.
  apply bind_inv in H as [(est & s1 & H1 & H)|(e & H1 & ->)].
  - apply (call_stretch_in in_boundary) in H1; [|reflexivity]. simpl in H1.
    apply bind_inv in H as [(x & s2 & H2 & H)|(e & H2 & ->)].
    + apply (call_stretch_in in_boundary) in H2; [|reflexivity].
      apply (call_stretch_in in_boundary) in H; [|reflexivity].
      replace (estimate_log [Call (OpFloat x); ending (OpFloat x) r])
        with (@nil (phase * string)) in H by (destruct r; reflexivity).
      simpl in H2.
      exact (stretch_trans _ _ _ _ _ _ H1 (stretch_trans _ _ _ _ _ _ H2 H)).
    + apply (call_stretch_in in_boundary) in H2; [|reflexivity]. simpl in H2.
      exact (stretch_trans _ _ _ _ _ _ H1 H2).
  - apply (call_stretch_in in_boundary) in H1; [|reflexivity]. exact H1.
Qed.

(** One iteration, by the three ways the [try] block can end. *)
Lemma loop_body_cases (model : CausalModel L) (estimand : Estimand L)
  (results : results_t) (m : string) (s : State L) :
  match attempt model estimand m s with
  | (Ok v, s') =>
      loop_body model estimand results m s = (Ok (Dict.set results m v), s')
  | (Raise e, s') =>
      loop_body model estimand results m s =
        if is_Exception e then (Ok (Dict.set results m nan), s') else (Raise e, s')
  end.
Proof.
  unfold loop_body, try_except_Exception, bind, ret.
  destruct (attempt model estimand m s) as [[v|e] s']; [reflexivity|].
  destruct (is_Exception e); reflexivity.
Qed.

Lemma loop_body_stretch (model : CausalModel L) (estimand : Estimand L) results m s r s' :
  loop_body model estimand results m s = (r, s') ->
  stretch s s' [(Begin, m); (End_, m)] (avoids in_boundary).
Proof.
  intros H. pose proof (loop_body_cases model estimand results m s) as Hc.
  destruct (attempt model estimand m s) as [[v|e] s1] eqn:Ha.
  - rewrite Hc in H. inversion H; subst. eapply attempt_stretch; eauto.
  - rewrite Hc in H. destruct (is_Exception e); inversion H; subst;
      eapply attempt_stretch; eauto.
Qed.

(** An iteration yields a mapping with the method's key set, whatever
    the value. *)
Lemma loop_body_ok (model : CausalModel L) (estimand : Estimand L) results m s r s' :
  loop_body model estimand results m s = (Ok r, s') ->
  exists v, r = Dict.set results m v.
Proof.
  intros H. pose proof (loop_body_cases model estimand results m s) as Hc.
  destruct (attempt model estimand m s) as [[v|e] s1].
  - rewrite Hc in H. inversion H; eauto.
  - rewrite Hc in H. destruct (is_Exception e); inversion H; eauto.
Qed.

Lemma for_methods_app (model : CausalModel L) (estimand : Estimand L) pre post results s r1 s1 :
  for_methods model estimand pre results s = (Ok r1, s1) ->
  for_methods model estimand (pre ++ post) results s =
  for_methods model estimand post r1 s1.
Proof.
  revert results s. induction pre as [|m pre IH]; intros results s H; simpl in *.
  - unfold ret in H. now inversion H.
  - apply bind_inv in H as [(r & s2 & H1 & H)|(e & _ & Habs)]; [|discriminate].
    rewrite (bind_ok _ _ _ _ _ H1). now apply IH.
Qed.

(** The loop logs a prefix of its methods, each begun and ended in turn;
    all of them when it returns. *)
Lemma for_methods_stretch (model : CausalModel L) (estimand : Estimand L) ms results s r s' :
  for_methods model estimand ms results s = (r, s') ->
  exists k, k <= length ms
    /\ stretch s s' (sequential (firstn k ms)) (avoids in_boundary)
    /\ (forall r', r = Ok r' -> k = length ms).
Proof.
  revert results s. induction ms as [|m ms IH]; intros results s H; simpl in H.
  - unfold ret in H. inversion H; subst. exists 0. split; [simpl; lia|].
    split; [apply stretch_refl|reflexivity].
  - apply bind_inv in H as [(r1 & s1 & H1 & H)|(e & H1 & ->)].
    + apply loop_body_stretch in H1.
      destruct (IH _ _ H) as (k & Hk & Hs & Hfull).
      exists (S k). split; [simpl; lia|]. split.
      * simpl firstn. change (m :: firstn k ms) with ([m] ++ firstn k ms).
        rewrite sequential_app. eapply stretch_trans; eauto.
      * intros r' Hr. simpl. f_equal. eauto.
    + apply loop_body_stretch in H1.
      exists 1. split; [simpl; lia|]. split; [|discriminate].
      simpl. destruct ms; exact H1.
Qed.

End Specs.

(** ** Dictionaries *)

Section DictFacts.

Context {V : Type}.

Lemma keys_set (d : Dict.dict V) k v :
  Dict.keys (Dict.set d k v) = Dict.add_key (Dict.keys d) k.
Proof.
  induction d as [|[k' v'] d IH]; simpl; [reflexivity|].
  destruct (String.eqb k' k) eqn:E; simpl.
  - apply String.eqb_eq in E. now subst.
  - now rewrite IH.
Qed.

Lemma get_set_same (d : Dict.dict V) k v : Dict.get (Dict.set d k v) k = Some v.
Proof.
  induction d as [|[k' v'] d IH]; simpl.
  - now rewrite String.eqb_refl.
  - destruct (String.eqb k' k) eqn:E; simpl.
    + now rewrite String.eqb_refl.
    + now rewrite E.
Qed.

Lemma get_set_other (d : Dict.dict V) k k' v :
  k <> k' -> Dict.get (Dict.set d k v) k' = Dict.get d k'.
Proof.
  intros Hne. induction d as [|[k0 v0] d IH]; simpl.
  - destruct (String.eqb k k') eqn:E; [apply String.eqb_eq in E; contradiction|reflexivity].
  - destruct (String.eqb k0 k) eqn:E; simpl.
    + apply String.eqb_eq in E. subst k0.
      destruct (String.eqb k k') eqn:E'; [apply String.eqb_eq in E'; contradiction|reflexivity].
    + destruct (String.eqb k0 k'); [reflexivity|exact IH].
Qed.

End DictFacts.

Section MoreSpecs.

Context {L : Library}.
Local Open Scope py_scope.

Lemma for_methods_keys (model : CausalModel L) (estimand : Estimand L)
  ms results s r s' :
  for_methods model estimand ms results s = (Ok r, s') ->
  Dict.keys r = fold_left Dict.add_key ms (Dict.keys results).
Proof.
  revert results s. induction ms as [|m ms IH]; intros results s H; simpl in *.
  - unfold ret in H. now inversion H.
  - apply bind_inv in H as [(r1 & s1 & H1 & H)|(e & _ & Habs)]; [|discriminate].
    apply loop_body_ok in H1 as [v ->].
    rewrite (IH _ _ H). now rewrite keys_set.
Qed.

(** Later iterations leave the entries of other methods alone. *)
Lemma for_methods_get (model : CausalModel L) (estimand : Estimand L)
  ms results s r s' m :
  for_methods model estimand ms results s = (Ok r, s') ->
  ~ In m ms ->
  Dict.get r m = Dict.get results m.
Proof.
  revert results s. induction ms as [|m' ms IH]; intros results s H Hin; simpl in *.
  - unfold ret in H. now inversion H.
  - apply bind_inv in H as [(r1 & s1 & H1 & H)|(e & _ & Habs)]; [|discriminate].
    apply loop_body_ok in H1 as [v ->].
    rewrite (IH _ _ H) by tauto.
    apply get_set_other. tauto.
Qed.

(** With a library whose estimator raises only below [Exception], an
    iteration always yields a mapping, and so does the loop. *)
Lemma attempt_ordinary (model : CausalModel L) (estimand : Estimand L) m s e s' :
  ordinary_failures L ->
  attempt model estimand m s = (Raise e, s') -> is_Exception e = true.
Proof.
  intros (He & Hv & Hf). unfold attempt. intros H.
  apply bind_inv in H as [(est & s1 & H1 & H)|(e1 & H1 & Heq)].
  - apply bind_inv in H as [(x & s2 & H2 & H)|(e2 & H2 & Heq)].
    + apply call_inv in H as (H & _). eauto.
    + inversion Heq; subst. apply call_inv in H2 as (H2 & _). eauto.
  - inversion Heq; subst. apply call_inv in H1 as (H1 & _). eauto.
Qed.

Lemma loop_body_ordinary (model : CausalModel L) (estimand : Estimand L)
  results m s :
  ordinary_failures L ->
  exists v s', loop_body model estimand results m s = (Ok (Dict.set results m v), s').
Proof.
  intros Hord. pose proof (loop_body_cases model estimand results m s) as Hc.
  destruct (attempt model estimand m s) as [[v|e] s1] eqn:Ha; [eauto|].
  rewrite (attempt_ordinary _ _ _ _ _ _ Hord Ha) in Hc. eauto.
Qed.

Lemma for_methods_ordinary (model : CausalModel L) (estimand : Estimand L)
  ms results s :
  ordinary_failures L ->
  exists r s', for_methods model estimand ms results s = (Ok r, s').
Proof.
  intros Hord. revert results s.
  induction ms as [|m ms IH]; intros results s; simpl.
  - unfold ret; eauto.
  - destruct (loop_body_ordinary model estimand results m s Hord) as (v & s1 & H1).
    rewrite (bind_ok _ _ _ _ _ H1). apply IH.
Qed.

Lemma methods_NoDup : NoDup (@methods).
Proof.
  unfold methods.
  repeat (constructor; [simpl; intuition discriminate|]). constructor.
Qed.

Lemma NoDup_split_notin {A} (pre post : list A) (m : A) :
  NoDup (pre ++ m :: post) -> ~ In m post.
Proof.
  intros H. apply NoDup_remove_2 in H. intros Hin. apply H.
  apply in_or_app. now right.
Qed.

(** [build_model] by the library call that ends it. *)
Lemma build_model_stretch (df : DataFrame L) graph s r s' :
  build_model df graph s = (r, s') ->
  stretch s s' [] (avoids in_build).
Proof.
  unfold build_model, deref. intros H.
  apply bind_inv in H as [(g & s0 & H0 & H)|(e & H0 & ->)].
  2:{ destruct (nth_error (heap s) graph); inversion H0; subst. apply stretch_refl. }
  assert (s0 = s) by (destruct (nth_error (heap s) graph); inversion H0; reflexivity).
  subst s0.
  apply bind_inv in H as [(dot & s1 & H1 & H)|(e & H1 & ->)];
    apply (call_stretch_in in_build) in H1; try reflexivity; simpl in H1; [|exact H1].
  apply bind_inv in H as [(gs & s2 & H2 & H)|(e & H2 & ->)];
    apply (call_stretch_in in_build) in H2; try reflexivity; simpl in H2;
    [|exact (stretch_trans _ _ _ _ _ _ H1 H2)].
  apply bind_inv in H as [(model & s3 & H3 & H)|(e & H3 & ->)];
    apply (call_stretch_in in_build) in H3; try reflexivity; simpl in H3;
    [|exact (stretch_trans _ _ _ _ _ _ H1 (stretch_trans _ _ _ _ _ _ H2 H3))].
  apply bind_inv in H as [(estimand & s4 & H4 & H)|(e & H4 & ->)];
    apply (call_stretch_in in_build) in H4; try reflexivity; simpl in H4.
  - unfold ret in H. inversion H; subst.
    exact (stretch_trans _ _ _ _ _ _ H1 (stretch_trans _ _ _ _ _ _ H2
             (stretch_trans _ _ _ _ _ _ H3 H4))).
  - exact (stretch_trans _ _ _ _ _ _ H1 (stretch_trans _ _ _ _ _ _ H2
             (stretch_trans _ _ _ _ _ _ H3 H4))).
Qed.

End MoreSpecs.

Section Counting.

Context {L : Library}.
Local Open Scope py_scope.

Lemma call_count {A} (p : op L -> bool) (o : op L) (f : W L -> Res A * W L) s r s' :
  call o f s = (r, s') ->
  calls p (trace s') = calls p (trace s) + (if p o then 1 else 0).
Proof.
  intros H. apply call_inv in H as (_ & _ & _ & Ht).
  rewrite Ht, calls_app. f_equal. unfold calls; simpl.
  destruct (p o); destruct r; reflexivity.
Qed.

Lemma deref_inv graph (s : State L) r s' :
  deref graph s = (r, s') ->
  s' = s /\ (forall g, r = Ok g -> nth_error (heap s) graph = Some g).
Proof.
  unfold deref. destruct (nth_error (heap s) graph); intros H; inversion H; subst.
  - split; [reflexivity|]. intros g0 Hg. now inversion Hg.
  - split; [reflexivity|]. discriminate.
Qed.

(** The model is constructed and the effect identified once when
    [build_model] returns, and at most once however it ends. *)

Lemma build_model_counts (df : DataFrame L) graph s r s' :
  build_model df graph s = (r, s') ->
  calls is_CausalModel (trace s') <= S (calls is_CausalModel (trace s))
  /\ calls is_IdentifyEffect (trace s') <= S (calls is_IdentifyEffect (trace s))
  /\ (forall me, r = Ok me ->
        calls is_CausalModel (trace s') = S (calls is_CausalModel (trace s))
        /\ calls is_IdentifyEffect (trace s') = S (calls is_IdentifyEffect (trace s))).
Proof.
  unfold build_model. intros H.
  apply bind_inv in H as [(g & s0 & H0 & H)|(e & H0 & ->)].
  2:{ apply deref_inv in H0 as [-> _]. counts_done. }
  apply deref_inv in H0 as [-> _].
  apply bind_inv in H as [(dot & s1 & H1 & H)|(e & H1 & ->)].
  2:{ pose proof (call_count is_CausalModel _ _ _ _ _ H1).
      pose proof (call_count is_IdentifyEffect _ _ _ _ _ H1).
      simpl in *. counts_done. }
  apply bind_inv in H as [(gs & s2 & H2 & H)|(e & H2 & ->)].
  2:{ pose proof (call_count is_CausalModel _ _ _ _ _ H1).
      pose proof (call_count is_IdentifyEffect _ _ _ _ _ H1).
      pose proof (call_count is_CausalModel _ _ _ _ _ H2).
      pose proof (call_count is_IdentifyEffect _ _ _ _ _ H2).
      simpl in *. counts_done. }
  apply bind_inv in H as [(model & s3 & H3 & H)|(e & H3 & ->)].
  2:{ pose proof (call_count is_CausalModel _ _ _ _ _ H1).
      pose proof (call_count is_IdentifyEffect _ _ _ _ _ H1).
      pose proof (call_count is_CausalModel _ _ _ _ _ H2).
      pose proof (call_count is_IdentifyEffect _ _ _ _ _ H2).
      pose proof (call_count is_CausalModel _ _ _ _ _ H3).
      pose proof (call_count is_IdentifyEffect _ _ _ _ _ H3).
      simpl in *. counts_done. }
  assert (calls is_CausalModel (trace s3) = S (calls is_CausalModel (trace s))
          /\ calls is_IdentifyEffect (trace s3) = calls is_IdentifyEffect (trace s))
    as [Hc Hi].
  { pose proof (call_count is_CausalModel _ _ _ _ _ H1).
    pose proof (call_count is_IdentifyEffect _ _ _ _ _ H1).
    pose proof (call_count is_CausalModel _ _ _ _ _ H2).
    pose proof (call_count is_IdentifyEffect _ _ _ _ _ H2).
    pose proof (call_count is_CausalModel _ _ _ _ _ H3).
    pose proof (call_count is_IdentifyEffect _ _ _ _ _ H3).
    simpl in *. lia. }
  apply bind_inv in H as [(estimand & s4 & H4 & H)|(e & H4 & ->)].
  - unfold ret in H. inversion H; subst.
    pose proof (call_count is_CausalModel _ _ _ _ _ H4).
    pose proof (call_count is_IdentifyEffect _ _ _ _ _ H4).
    simpl in *. counts_done.
  - pose proof (call_count is_CausalModel _ _ _ _ _ H4).
    pose proof (call_count is_IdentifyEffect _ _ _ _ _ H4).
    simpl in *. counts_done.
Qed.

Lemma load_data_stretch (s : State L) r s' :
  load_data s = (r, s') -> stretch s s' [] (avoids in_load).
Proof.
  unfold load_data. intros H.
  apply bind_inv in H as [(df & s1 & H1 & H)|(e & H1 & ->)];
    apply (call_stretch_in in_load) in H1; try reflexivity; simpl in H1; [|exact H1].
  apply bind_inv in H as [(df' & s2 & H2 & H)|(e & H2 & ->)];
    apply (call_stretch_in in_load) in H2; try reflexivity; simpl in H2.
  - unfold ret in H. inversion H; subst. exact (stretch_trans _ _ _ _ _ _ H1 H2).
  - exact (stretch_trans _ _ _ _ _ _ H1 H2).
Qed.

(** [load_graph]: one new heap cell when it returns, none when it
    raises; the graph is unpickled at most once. *)
Lemma load_graph_inv (s : State L) r s' :
  load_graph s = (r, s') ->
  stdout s' = stdout s
  /\ estimate_log (trace s') = estimate_log (trace s)
  /\ calls is_PickleLoad (trace s') <= S (calls is_PickleLoad (trace s))
  /\ match r with
     | Ok graph =>
         graph = length (heap s)
         /\ (exists g, heap s' = heap s ++ [g])
         /\ calls is_PickleLoad (trace s') = S (calls is_PickleLoad (trace s))
     | Raise _ => heap s' = heap s
     end.
Proof.
  unfold load_graph. intros H.
  apply bind_inv in H as [(f & s1 & H1 & H)|(e & H1 & ->)].
  2:{ pose proof (call_count is_PickleLoad _ _ _ _ _ H1) as Hc.
      pose proof (call_stretch (OpOpen GRAPH_PATH) _ _ _ _ H1) as [Hh Ho Hl _].
      simpl in Hc, Hl. rewrite app_nil_r in Hl.
      repeat split; auto; lia. }
  pose proof (call_count is_PickleLoad _ _ _ _ _ H1) as Hc1.
  pose proof (call_stretch (OpOpen GRAPH_PATH) _ _ _ _ H1) as [Hh1 Ho1 Hl1 _].
  simpl in Hc1, Hl1. rewrite app_nil_r in Hl1.
  unfold with_file in H.
  destruct (bind (call (OpPickleLoad f) (pickle_load L f)) (fun g => alloc g) s1)
    as [r2 s2] eqn:Hb.
  inversion H; subst; clear H. simpl.
  apply bind_inv in Hb as [(g & s3 & H3 & Hb)|(e & H3 & ->)].
  - pose proof (call_count is_PickleLoad _ _ _ _ _ H3) as Hc3.
    pose proof (call_stretch (OpPickleLoad f) _ _ _ _ H3) as [Hh3 Ho3 Hl3 _].
    simpl in Hc3, Hl3. rewrite app_nil_r in Hl3.
    unfold alloc in Hb. inversion Hb; subst; clear Hb. simpl.
    repeat split; try congruence; try lia.
    exists g. congruence.
  - pose proof (call_count is_PickleLoad _ _ _ _ _ H3) as Hc3.
    pose proof (call_stretch (OpPickleLoad f) _ _ _ _ H3) as [Hh3 Ho3 Hl3 _].
    simpl in Hc3, Hl3. rewrite app_nil_r in Hl3.
    repeat split; try congruence; try lia.
Qed.

Lemma print_items_eq (items : list (string * float)) (s : State L) :
  print_items items s =
  (Ok tt, mkState (world s) (heap s)
            (stdout s ++ map (fun nv => report_line (fst nv) (snd nv)) items)
            (trace s)).
Proof.
  revert s. induction items as [|[name val] items IH]; intros s; simpl.
  - unfold ret. rewrite app_nil_r. now destruct s.
  - unfold bind, print. rewrite IH. simpl. now rewrite <- app_assoc.
Qed.

Lemma main_cases (s : State L) :
  match load_data s with
  | (Raise e, s1) => main s = (Raise e, s1)
  | (Ok df, s1) =>
      match load_graph s1 with
      | (Raise e, s2) => main s = (Raise e, s2)
      | (Ok graph, s2) =>
          match estimate_effects df graph s2 with
          | (Raise e, s3) => main s = (Raise e, s3)
          | (Ok results, s3) => main s = (Ok tt, reported results s3)
          end
      end
  end.
Proof.
  unfold main, bind.
  destruct (load_data s) as [[df|e] s1]; [|reflexivity].
  destruct (load_graph s1) as [[graph|e] s2]; [|reflexivity].
  destruct (estimate_effects df graph s2) as [[results|e] s3]; [|reflexivity].
  unfold print at 1. simpl. rewrite print_items_eq. simpl.
  unfold reported, Dict.items. now rewrite <- app_assoc.
Qed.

End Counting.

(** ** The estimator driver: the per-method boundary *)

Section Driver.

Context {L : Library}.
Local Open Scope py_scope.

Lemma estimate_effects_eq (df : DataFrame L) graph st model estimand s0 :
  build_model df graph st = (Ok (model, estimand), s0) ->
  estimate_effects df graph st = for_methods model estimand methods Dict.empty s0.
Proof. intros H. unfold estimate_effects. now rewrite (bind_ok _ _ _ _ _ H). Qed.

(** The log once the loop has gone through [pre] and tried [m]. *)
Lemma log_through (model : CausalModel L) (estimand : Estimand L)
  pre m r1 s0 s1 r s2 :
  for_methods model estimand pre Dict.empty s0 = (Ok r1, s1) ->
  attempt model estimand m s1 = (r, s2) ->
  estimate_log (trace s2) = estimate_log (trace s0) ++ sequential (pre ++ [m]).
Proof.
  intros Hpre Ha.
  destruct (for_methods_stretch _ _ _ _ _ _ _ Hpre) as (k & _ & Hs & Hk).
  rewrite (Hk _ eq_refl), firstn_all in Hs.
  apply attempt_stretch in Ha.
  rewrite (st_log _ _ _ _ Ha), (st_log _ _ _ _ Hs), sequential_app.
  now rewrite <- app_assoc.
Qed.

(** C1: when the estimation of a method of the list raises a failure (an
    exception below [Exception], whatever its cause), [estimate_effects]
    records [nan] for that method and goes on with the remaining methods:
    the run is the loop over the methods after it, from the mapping with
    the sentinel set; the sentinel is the method's entry in the mapping
    returned; and with a library whose estimator fails only this way, all
    four methods are attempted and a mapping is returned. *)
Theorem estimate_effects_isolates_failures
  (df : DataFrame L) (graph : gref) (st : State L)
  (model : CausalModel L) (estimand : Estimand L) (s0 : State L)
  (pre : list string) (m : string) (post : list string)
  (r1 : results_t) (s1 : State L) (e : exn) (s2 : State L) :
  build_model df graph st = (Ok (model, estimand), s0) ->
  methods = pre ++ m :: post ->
  for_methods model estimand pre Dict.empty s0 = (Ok r1, s1) ->
  attempt model estimand m s1 = (Raise e, s2) ->
  is_Exception e = true ->
  estimate_effects df graph st
    = for_methods model estimand post (Dict.set r1 m nan) s2
  /\ (forall r s3, estimate_effects df graph st = (Ok r, s3) ->
        Dict.get r m = Some nan)
  /\ (ordinary_failures L ->
        exists r s3,
          estimate_effects df graph st = (Ok r, s3)
          /\ estimate_log (trace s3) = estimate_log (trace s0) ++ sequential methods
          /\ Dict.get r m = Some nan).
Proof.
  intros Hb Hsplit Hpre Ha He.
  assert (Hrun : estimate_effects df graph st
                 = for_methods model estimand post (Dict.set r1 m nan) s2).
  { rewrite (estimate_effects_eq _ _ _ _ _ _ Hb), Hsplit.
    rewrite (for_methods_app _ _ _ _ _ _ _ _ Hpre). simpl.
    pose proof (loop_body_cases model estimand r1 m s1) as Hc.
    rewrite Ha, He in Hc. now rewrite (bind_ok _ _ _ _ _ Hc). }
  assert (Hnotin : ~ In m post).
  { apply (NoDup_split_notin pre). rewrite <- Hsplit. apply methods_NoDup. }
  assert (Hget : forall r s3, estimate_effects df graph st = (Ok r, s3) ->
                              Dict.get r m = Some nan).
  { intros r s3 Hr. rewrite Hrun in Hr.
    rewrite (for_methods_get _ _ _ _ _ _ _ _ Hr Hnotin). apply get_set_same. }
  split; [exact Hrun|]. split; [exact Hget|].
  intros Hord.
  destruct (for_methods_ordinary model estimand methods Dict.empty s0 Hord)
    as (r & s3 & Hall).
  exists r, s3. rewrite (estimate_effects_eq _ _ _ _ _ _ Hb).
  split; [exact Hall|]. split.
  - destruct (for_methods_stretch _ _ _ _ _ _ _ Hall) as (k & _ & Hs & Hk).
    rewrite (Hk _ eq_refl), firstn_all in Hs. exact (st_log _ _ _ _ Hs).
  - apply (Hget r s3). now rewrite (estimate_effects_eq _ _ _ _ _ _ Hb).
Qed.

(** C10: the boundary of an iteration catches exactly the exceptions
    below [Exception].  An exception that is not (a [KeyboardInterrupt],
    a [SystemExit]) raised while a method is estimated leaves the
    iteration, and [estimate_effects] with it: the run ends in the state
    the failed call left, the methods after it are never begun, and no
    mapping is returned. *)
Theorem boundary_catches_only_Exception
  (df : DataFrame L) (graph : gref) (st : State L)
  (model : CausalModel L) (estimand : Estimand L) (s0 : State L)
  (pre : list string) (m : string) (post : list string)
  (r1 : results_t) (s1 : State L) (e : exn) (s2 : State L) :
  build_model df graph st = (Ok (model, estimand), s0) ->
  methods = pre ++ m :: post ->
  for_methods model estimand pre Dict.empty s0 = (Ok r1, s1) ->
  attempt model estimand m s1 = (Raise e, s2) ->
  is_Exception e = false ->
  loop_body model estimand r1 m s1 = (Raise e, s2)
  /\ estimate_effects df graph st = (Raise e, s2)
  /\ estimate_log (trace s2) = estimate_log (trace s0) ++ sequential (pre ++ [m])
  /\ (forall results e' s s',
        attempt model estimand m s = (Raise e', s') ->
        loop_body model estimand results m s
        = if is_Exception e' then (Ok (Dict.set results m nan), s')
          else (Raise e', s')).
Proof.
  intros Hb Hsplit Hpre Ha He.
  assert (Hbody : loop_body model estimand r1 m s1 = (Raise e, s2)).
  { pose proof (loop_body_cases model estimand r1 m s1) as Hc.
    now rewrite Ha, He in Hc. }
  split; [exact Hbody|]. split; [|split].
  - rewrite (estimate_effects_eq _ _ _ _ _ _ Hb), Hsplit.
    rewrite (for_methods_app _ _ _ _ _ _ _ _ Hpre). simpl.
    now rewrite (bind_raise _ _ _ _ _ Hbody).
  - eapply log_through; eauto.
  - intros results e' s s' Ha'.
    pose proof (loop_body_cases model estimand results m s) as Hc.
    now rewrite Ha' in Hc.
Qed.

Lemma get_keys {V} (d : Dict.dict V) k : Dict.get d k <> None <-> In k (Dict.keys d).
Proof.
  induction d as [|[k' v'] d IH]; simpl.
  - split; [congruence|tauto].
  - destruct (String.eqb k' k) eqn:E.
    + apply String.eqb_eq in E. split; [auto|congruence].
    + apply String.eqb_neq in E. rewrite IH. tauto.
Qed.

(** The keys of a returned mapping are the method list. *)
Lemma returned_keys (df : DataFrame L) graph st (r : results_t) st' :
  estimate_effects df graph st = (Ok r, st') -> Dict.keys r = methods.
Proof.
  intros H. unfold estimate_effects in H.
  apply bind_inv in H as [(me & s0 & _ & H)|(e & _ & Habs)]; [|discriminate].
  apply for_methods_keys in H. exact H.
Qed.

(** C2: whenever [estimate_effects] returns, the keys of the mapping it
    returns are the four method identifiers, each once, in the order of
    the list: a key is set exactly when it is one of the four. *)
Theorem estimate_effects_keys
  (df : DataFrame L) (graph : gref) (st : State L) (r : results_t) (st' : State L) :
  estimate_effects df graph st = (Ok r, st') ->
  Dict.keys r = [ "backdoor.propensity_score_matching";
                  "backdoor.propensity_score_weighting";
                  "backdoor.propensity_score_stratification";
                  "backdoor.linear_regression" ]
  /\ NoDup (Dict.keys r)
  /\ (forall k, Dict.get r k <> None <->
        k = "backdoor.propensity_score_matching"
        \/ k = "backdoor.propensity_score_weighting"
        \/ k = "backdoor.propensity_score_stratification"
        \/ k = "backdoor.linear_regression").
Proof.
  intros H. apply returned_keys in H.
  split; [exact H|]. split.
  - rewrite H. apply methods_NoDup.
  - intros k. rewrite get_keys, H. simpl. intuition congruence.
Qed.

(** C3: [estimate_effects] runs the four methods in the order matching,
    weighting, stratification, linear regression, each one ended before
    the next is begun: however the run ends, the estimator entries it
    adds to the log are those of a prefix of the list, each method begun
    and then ended; when it returns they are those of all four; and it
    returns whenever the model is built and the estimator raises only
    below [Exception]. *)
Theorem estimate_effects_runs_four_in_order
  (df : DataFrame L) (graph : gref) (st : State L) :
  (exists k, k <= 4
     /\ estimate_log (trace (snd (estimate_effects df graph st)))
        = estimate_log (trace st)
          ++ sequential (firstn k [ "backdoor.propensity_score_matching";
                                    "backdoor.propensity_score_weighting";
                                    "backdoor.propensity_score_stratification";
                                    "backdoor.linear_regression" ]))
  /\ (forall r st', estimate_effects df graph st = (Ok r, st') ->
        estimate_log (trace st')
        = estimate_log (trace st)
          ++ [ (Begin, "backdoor.propensity_score_matching");
               (End_, "backdoor.propensity_score_matching");
               (Begin, "backdoor.propensity_score_weighting");
               (End_, "backdoor.propensity_score_weighting");
               (Begin, "backdoor.propensity_score_stratification");
               (End_, "backdoor.propensity_score_stratification");
               (Begin, "backdoor.linear_regression");
               (End_, "backdoor.linear_regression") ])
  /\ (ordinary_failures L ->
      forall me s0, build_model df graph st = (Ok me, s0) ->
      exists r st', estimate_effects df graph st = (Ok r, st')).
Proof.
  assert (Hany : forall out s', estimate_effects df graph st = (out, s') ->
            exists k, k <= 4
              /\ estimate_log (trace s')
                 = estimate_log (trace st) ++ sequential (firstn k methods)
              /\ (forall r, out = Ok r -> k = 4)).
  { intros out s' H. unfold estimate_effects in H.
    apply bind_inv in H as [(me & s0 & Hb & H)|(e & Hb & ->)].
    - apply build_model_stretch in Hb.
      destruct (for_methods_stretch _ _ _ _ _ _ _ H) as (k & Hk & Hs & Hfull).
      exists k. split; [exact Hk|]. split; [|exact Hfull].
      rewrite (st_log _ _ _ _ Hs), (st_log _ _ _ _ Hb). now rewrite app_nil_r.
    - apply build_model_stretch in Hb. exists 0. split; [lia|]. split; [|discriminate].
      rewrite (st_log _ _ _ _ Hb). reflexivity. }
  split; [|split].
  - destruct (estimate_effects df graph st) as [out s'] eqn:E.
    destruct (Hany _ _ eq_refl) as (k & Hk & Hl & _). exists k. now split.
  - intros r st' H. destruct (Hany _ _ H) as (k & _ & Hl & Hfull).
    rewrite (Hfull r eq_refl) in Hl. exact Hl.
  - intros Hord [model estimand] s0 Hb.
    rewrite (estimate_effects_eq _ _ _ _ _ _ Hb).
    apply for_methods_ordinary, Hord.
Qed.

End Driver.

(** ** The whole run: loading, estimating, reporting *)

Section Run.

Context {L : Library}.
Local Open Scope py_scope.

Lemma avoids_build_PickleLoad : avoids (@in_build L) is_PickleLoad.
Proof. intros o; destruct o; simpl; congruence. Qed.

Lemma avoids_boundary_PickleLoad : avoids (@in_boundary L) is_PickleLoad.
Proof. intros o; destruct o; simpl; congruence. Qed.

Lemma avoids_load_PickleLoad : avoids (@in_load L) is_PickleLoad.
Proof. intros o; destruct o; simpl; congruence. Qed.

Lemma avoids_boundary_CausalModel : avoids (@in_boundary L) is_CausalModel.
Proof. intros o; destruct o; simpl; congruence. Qed.

Lemma avoids_boundary_IdentifyEffect : avoids (@in_boundary L) is_IdentifyEffect.
Proof. intros o; destruct o; simpl; congruence. Qed.

(** [estimate_effects] touches neither the heap nor standard output, and
    unpickles nothing. *)
Lemma estimate_effects_frame (df : DataFrame L) graph s r s' :
  estimate_effects df graph s = (r, s') ->
  heap s' = heap s
  /\ stdout s' = stdout s
  /\ calls is_PickleLoad (trace s') = calls is_PickleLoad (trace s).
Proof.
  unfold estimate_effects. intros H.
  apply bind_inv in H as [(me & s0 & Hb & H)|(e & Hb & ->)].
  - apply build_model_stretch in Hb.
    destruct (for_methods_stretch _ _ _ _ _ _ _ H) as (k & _ & Hs & _).
    destruct Hb as [h1 o1 _ c1], Hs as [h2 o2 _ c2].
    rewrite (c2 _ avoids_boundary_PickleLoad), (c1 _ avoids_build_PickleLoad).
    repeat split; congruence.
  - apply build_model_stretch in Hb. destruct Hb as [h1 o1 _ c1].
    rewrite (c1 _ avoids_build_PickleLoad). auto.
Qed.

(** C4: a failure of [load_data] (of the column selection or of the
    preprocessing) or of [load_graph] (of opening the file or of
    unpickling it) leaves [main] as the same exception and ends the
    process with it; no estimation method is begun and nothing is
    printed. *)
Theorem loading_failures_are_fatal (st : State L) :
  (forall e s1, load_data st = (Raise e, s1) ->
     main st = (Raise e, s1)
     /\ run_script st = (Uncaught e, s1)
     /\ estimate_log (trace s1) = estimate_log (trace st)
     /\ stdout s1 = stdout st)
  /\ (forall df s1 e s2,
        load_data st = (Ok df, s1) -> load_graph s1 = (Raise e, s2) ->
        main st = (Raise e, s2)
        /\ run_script st = (Uncaught e, s2)
        /\ estimate_log (trace s2) = estimate_log (trace st)
        /\ stdout s2 = stdout st)
  /\ (forall e w, choose_columns L (world st) = (Raise e, w) ->
        exists s1, load_data st = (Raise e, s1) /\ world s1 = w)
  /\ (forall df w e w',
        choose_columns L (world st) = (Ok df, w) ->
        preprocess_data L df load_data_options w = (Raise e, w') ->
        exists s1, load_data st = (Raise e, s1) /\ world s1 = w')
  /\ (forall (s : State L) e w, open_rb L (@GRAPH_PATH L) (world s) = (Raise e, w) ->
        exists s2, load_graph s = (Raise e, s2) /\ world s2 = w)
  /\ (forall (s : State L) f w e w',
        open_rb L (@GRAPH_PATH L) (world s) = (Ok f, w) ->
        pickle_load L f w = (Raise e, w') ->
        exists s2, load_graph s = (Raise e, s2) /\ world s2 = close L f w').
Proof.
  repeat split.
  - pose proof (main_cases st) as Hm. now rewrite H in Hm.
  - unfold run_script. pose proof (main_cases st) as Hm. rewrite H in Hm. now rewrite Hm.
  - apply load_data_stretch in H. rewrite (st_log _ _ _ _ H). apply app_nil_r.
  - apply load_data_stretch in H. exact (st_stdout _ _ _ _ H).
  - pose proof (main_cases st) as Hm. now rewrite H, H0 in Hm.
  - unfold run_script. pose proof (main_cases st) as Hm. rewrite H, H0 in Hm.
    now rewrite Hm.
  - apply load_data_stretch in H. apply load_graph_inv in H0 as (_ & Hl & _).
    rewrite Hl, (st_log _ _ _ _ H). apply app_nil_r.
  - apply load_data_stretch in H. apply load_graph_inv in H0 as (Ho & _).
    rewrite Ho. exact (st_stdout _ _ _ _ H).
  - intros e w H. unfold load_data.
    rewrite (bind_raise _ _ _ _ _ (call_eq _ _ _ _ _ H)). eexists; split; reflexivity.
  - intros df w e w' H1 H2. unfold load_data.
    rewrite (bind_ok _ _ _ _ _ (call_eq _ _ _ _ _ H1)).
    erewrite bind_raise by (apply call_eq; exact H2).
    eexists; split; reflexivity.
  - intros s e w H. unfold load_graph.
    rewrite (bind_raise _ _ _ _ _ (call_eq _ _ _ _ _ H)). eexists; split; reflexivity.
  - intros s f w e w' H1 H2. unfold load_graph.
    rewrite (bind_ok _ _ _ _ _ (call_eq _ _ _ _ _ H1)).
    unfold with_file. erewrite bind_raise by (apply call_eq; exact H2).
    eexists; split; reflexivity.
Qed.

(** C5: the model is constructed and the effect identified once, before
    the loop and outside its [try]: a failure of the construction or of
    the identification, of whatever class, leaves [estimate_effects] as
    that exception, with no method begun and no mapping returned; when
    both succeed, the run is the loop over the four methods from the
    state they leave, each was called once by then, no method is begun
    yet, and the loop calls neither again; and no run calls either
    twice. *)
Theorem model_built_once_outside_boundary
  (df : DataFrame L) (graph : gref) (st : State L) :
  (forall g dot gs w1 w2 e w3,
      nth_error (heap st) graph = Some g ->
      to_pydot L g (world st) = (Ok dot, w1) ->
      to_string L dot w1 = (Ok gs, w2) ->
      new_CausalModel L df TREATMENT OUTCOME gs w2 = (Raise e, w3) ->
      exists s', estimate_effects df graph st = (Raise e, s')
        /\ world s' = w3
        /\ estimate_log (trace s') = estimate_log (trace st)
        /\ calls is_CausalModel (trace s') = S (calls is_CausalModel (trace st))
        /\ calls is_IdentifyEffect (trace s') = calls is_IdentifyEffect (trace st))
  /\ (forall g dot gs w1 w2 model w3 e w4,
      nth_error (heap st) graph = Some g ->
      to_pydot L g (world st) = (Ok dot, w1) ->
      to_string L dot w1 = (Ok gs, w2) ->
      new_CausalModel L df TREATMENT OUTCOME gs w2 = (Ok model, w3) ->
      identify_effect L model w3 = (Raise e, w4) ->
      exists s', estimate_effects df graph st = (Raise e, s')
        /\ world s' = w4
        /\ estimate_log (trace s') = estimate_log (trace st)
        /\ calls is_CausalModel (trace s') = S (calls is_CausalModel (trace st))
        /\ calls is_IdentifyEffect (trace s') = S (calls is_IdentifyEffect (trace st)))
  /\ (forall model estimand s0,
      build_model df graph st = (Ok (model, estimand), s0) ->
      estimate_effects df graph st
        = for_methods model estimand methods Dict.empty s0
      /\ calls is_CausalModel (trace s0) = S (calls is_CausalModel (trace st))
      /\ calls is_IdentifyEffect (trace s0) = S (calls is_IdentifyEffect (trace st))
      /\ estimate_log (trace s0) = estimate_log (trace st)
      /\ (forall r s1,
            for_methods model estimand methods Dict.empty s0 = (r, s1) ->
            calls is_CausalModel (trace s1) = calls is_CausalModel (trace s0)
            /\ calls is_IdentifyEffect (trace s1) = calls is_IdentifyEffect (trace s0)))
  /\ calls is_CausalModel (trace (snd (estimate_effects df graph st)))
       <= S (calls is_CausalModel (trace st))
  /\ calls is_IdentifyEffect (trace (snd (estimate_effects df graph st)))
       <= S (calls is_IdentifyEffect (trace st)).
Proof.
  split; [|split; [|split]].
  - intros g dot gs w1 w2 e w3 Hg H1 H2 H3.
    unfold estimate_effects, build_model, bind, deref, call. simpl.
    rewrite Hg. simpl. rewrite H1. simpl. rewrite H2. simpl. rewrite H3.
    eexists. split; [reflexivity|]. repeat split; log_calc.
  - intros g dot gs w1 w2 model w3 e w4 Hg H1 H2 H3 H4.
    unfold estimate_effects, build_model, bind, deref, call. simpl.
    rewrite Hg. simpl. rewrite H1. simpl. rewrite H2. simpl. rewrite H3. simpl.
    rewrite H4.
    eexists. split; [reflexivity|]. repeat split; log_calc.
  - intros model estimand s0 Hb.
    destruct (build_model_counts _ _ _ _ _ Hb) as (_ & _ & Hc).
    destruct (Hc _ eq_refl) as [Hcm Hid].
    split; [now apply estimate_effects_eq|]. split; [exact Hcm|]. split; [exact Hid|].
    split.
    + apply build_model_stretch in Hb. rewrite (st_log _ _ _ _ Hb). apply app_nil_r.
    + intros r s1 Hf.
      destruct (for_methods_stretch _ _ _ _ _ _ _ Hf) as (k & _ & Hs & _).
      split; apply (st_calls _ _ _ _ Hs);
        [apply avoids_boundary_CausalModel|apply avoids_boundary_IdentifyEffect].
  - unfold estimate_effects.
    destruct (build_model df graph st) as [[me|e] s0] eqn:Hb.
    + rewrite (bind_ok _ _ _ _ _ Hb).
      destruct (build_model_counts _ _ _ _ _ Hb) as (H1 & H2 & _).
      destruct (for_methods (fst me) (snd me) methods Dict.empty s0) as [r s1] eqn:Hf.
      destruct (for_methods_stretch _ _ _ _ _ _ _ Hf) as (k & _ & Hs & _). simpl.
      rewrite (st_calls _ _ _ _ Hs _ avoids_boundary_CausalModel).
      rewrite (st_calls _ _ _ _ Hs _ avoids_boundary_IdentifyEffect). now split.
    + rewrite (bind_raise _ _ _ _ _ Hb). simpl.
      destruct (build_model_counts _ _ _ _ _ Hb) as (H1 & H2 & _). now split.
Qed.

(** C6: [load_data] passes what the column chooser returned to the
    preprocessor with the options [na_threshold = 0.5],
    [impute_strategy = "drop"], [treatment_dichotomize_value = "median"]
    and [treatment_column = "Y11_Q57"], in one call, whose outcome is
    the outcome of [load_data]. *)
Theorem load_data_calls_preprocessor
  (st : State L) (df0 : DataFrame L) (w1 : W L) :
  choose_columns L (world st) = (Ok df0, w1) ->
  let opts := {| na_threshold := S754_finite false 4503599627370496 (-53);
                 impute_strategy := "drop";
                 treatment_dichotomize_value := "median";
                 treatment_column := "Y11_Q57" |} in
  fst (load_data st) = fst (preprocess_data L df0 opts w1)
  /\ world (snd (load_data st)) = snd (preprocess_data L df0 opts w1)
  /\ trace (snd (load_data st))
     = trace st ++ [ Call OpChooseColumns; Return OpChooseColumns;
                     Call (OpPreprocess df0 opts);
                     ending (OpPreprocess df0 opts) (fst (preprocess_data L df0 opts w1)) ]
  /\ (to_Q (na_threshold opts) == 1 # 2)%Q.
Proof.
  intros Hc opts. unfold load_data, bind, call. simpl. rewrite Hc. simpl.
  change load_data_options with opts.
  destruct (preprocess_data L df0 opts w1) as [[df|e] w2]; simpl;
    rewrite <- !app_assoc; simpl; repeat split; reflexivity.
Qed.

(** C7: when [main] runs to its end the process exits with code 0, and
    0 is the only exit code the script produces; with the data and the
    graph loaded and the model built, the run ends that way whichever
    of the four methods fail, as long as they fail below [Exception]. *)
Theorem exit_code_zero_on_completion (st : State L) :
  (forall s', main st = (Ok tt, s') -> run_script st = (Exited 0, s'))
  /\ (forall code s', run_script st = (Exited code, s') -> code = 0%Z)
  /\ (ordinary_failures L ->
      forall df s1 graph s2 me s3,
        load_data st = (Ok df, s1) ->
        load_graph s1 = (Ok graph, s2) ->
        build_model df graph s2 = (Ok me, s3) ->
        exists results s4,
          estimate_effects df graph s2 = (Ok results, s4)
          /\ run_script st = (Exited 0, reported results s4)).
Proof.
  split; [|split].
  - intros s' H. unfold run_script. now rewrite H.
  - intros code s'. unfold run_script.
    destruct (main st) as [[u|e] s1]; intros H; now inversion H.
  - intros Hord df s1 graph s2 [model estimand] s3 Hd Hg Hb.
    destruct (for_methods_ordinary model estimand methods Dict.empty s3 Hord)
      as (results & s4 & Hf).
    exists results, s4.
    assert (He : estimate_effects df graph s2 = (Ok results, s4))
      by now rewrite (estimate_effects_eq _ _ _ _ _ _ Hb).
    split; [exact He|].
    pose proof (main_cases st) as Hm. rewrite Hd, Hg, He in Hm.
    unfold run_script. now rewrite Hm.
Qed.

(** C9: the graph is unpickled at most once in a run, and once in a run
    that completes; [estimate_effects] leaves the heap as it found it,
    so that the graph object is the same before and after; and from its
    loading to the end of [main] the graph's heap cell is never
    written. *)
Theorem graph_loaded_once_never_mutated (st : State L) :
  (forall (df : DataFrame L) graph s,
      heap (snd (estimate_effects df graph s)) = heap s)
  /\ calls is_PickleLoad (trace (snd (main st)))
       <= S (calls is_PickleLoad (trace st))
  /\ (forall s', main st = (Ok tt, s') ->
        calls is_PickleLoad (trace s') = S (calls is_PickleLoad (trace st)))
  /\ (forall df s1 graph s2,
        load_data st = (Ok df, s1) ->
        load_graph s1 = (Ok graph, s2) ->
        heap (snd (main st)) = heap s2
        /\ exists g, nth_error (heap s2) graph = Some g
                     /\ nth_error (heap (snd (main st))) graph = Some g).
Proof.
  assert (Hframe : forall (df : DataFrame L) graph s,
             heap (snd (estimate_effects df graph s)) = heap s).
  { intros df graph s. destruct (estimate_effects df graph s) as [r s'] eqn:E.
    now apply estimate_effects_frame in E. }
  assert (Hmain : forall df s1 graph s2,
             load_data st = (Ok df, s1) -> load_graph s1 = (Ok graph, s2) ->
             heap (snd (main st)) = heap s2
             /\ calls is_PickleLoad (trace (snd (main st)))
                = S (calls is_PickleLoad (trace st))).
  { intros df s1 graph s2 Hd Hg. pose proof (main_cases st) as Hm.
    rewrite Hd, Hg in Hm.
    apply load_data_stretch in Hd. pose proof (load_graph_inv _ _ _ Hg) as (_ & _ & _ & _ & _ & Hc).
    rewrite (st_calls _ _ _ _ Hd _ avoids_load_PickleLoad) in Hc.
    destruct (estimate_effects df graph s2) as [[r|e] s3] eqn:He;
      apply estimate_effects_frame in He as (Hh & _ & Hp);
      rewrite Hm; simpl; split; congruence. }
  split; [exact Hframe|]. split; [|split].
  - pose proof (main_cases st) as Hm.
    destruct (load_data st) as [[df|e] s1] eqn:Hd.
    + destruct (load_graph s1) as [[graph|e] s2] eqn:Hg.
      * destruct (Hmain _ _ _ _ eq_refl Hg) as [_ Hc]. lia.
      * rewrite Hm. simpl. apply load_data_stretch in Hd.
        apply load_graph_inv in Hg as (_ & _ & Hc & _).
        rewrite (st_calls _ _ _ _ Hd _ avoids_load_PickleLoad) in Hc. exact Hc.
    + rewrite Hm. simpl. apply load_data_stretch in Hd.
      rewrite (st_calls _ _ _ _ Hd _ avoids_load_PickleLoad). lia.
  - intros s' H. pose proof (main_cases st) as Hm.
    destruct (load_data st) as [[df|e] s1] eqn:Hd; [|congruence].
    destruct (load_graph s1) as [[graph|e] s2] eqn:Hg; [|congruence].
    destruct (Hmain _ _ _ _ eq_refl Hg) as [_ Hc]. now rewrite H in Hc.
  - intros df s1 graph s2 Hd Hg.
    destruct (Hmain _ _ _ _ Hd Hg) as [Hh _]. split; [exact Hh|].
    apply load_graph_inv in Hg as (_ & _ & _ & -> & (g & Hheap) & _).
    exists g. rewrite Hh, Hheap.
    assert (Hn : nth_error (heap s1 ++ [g]) (length (heap s1)) = Some g).
    { rewrite nth_error_app2 by lia. now rewrite Nat.sub_diag. }
    now split.
Qed.

End Run.

(** ** The reporter *)

Section Format.

Lemma is_digit_digit d : is_digit (digit d) = true.
Proof.
  unfold digit.
  assert (H : (0 <= d mod 10 < 10)%Z) by (apply Z.mod_pos_bound; lia).
  assert (Hk : Z.to_nat (d mod 10) < 10) by lia.
  destruct (Z.to_nat (d mod 10)) as [|k]; [reflexivity|].
  do 9 (destruct k as [|k]; [reflexivity|]). lia.
Qed.

Lemma all_digits_uint d : all_digits (NilEmpty.string_of_uint d) = true.
Proof. induction d; simpl; auto. Qed.

Lemma decimal_digits n : all_digits (decimal n) = true /\ decimal n <> "".
Proof.
  unfold decimal, NilZero.string_of_uint.
  destruct (N.to_uint (Z.to_N n)) eqn:E; simpl;
    (split; [try reflexivity; apply all_digits_uint|discriminate]).
Qed.

Lemma digit_not_dot c : is_digit c = true -> Ascii.eqb c "." = false.
Proof.
  intros H. destruct (Ascii.eqb_spec c "."%char) as [->|]; [discriminate H|reflexivity].
Qed.

Lemma digit_not_minus c : is_digit c = true -> Ascii.eqb c "-" = false.
Proof.
  intros H. destruct (Ascii.eqb_spec c "-"%char) as [->|]; [discriminate H|reflexivity].
Qed.

Lemma split_dot_app i f :
  all_digits i = true -> split_dot (i ++ String "." f) = Some (i, f).
Proof.
  induction i as [|c i IH]; simpl; intros H; [reflexivity|].
  apply andb_prop in H as [Hc Hi].
  now rewrite (digit_not_dot _ Hc), (IH Hi).
Qed.

Lemma all_digits_frac4 n : all_digits (frac4 n) = true /\ String.length (frac4 n) = 4.
Proof.
  unfold frac4. split; [|reflexivity].
  cbn [all_digits]. now rewrite !is_digit_digit.
Qed.

Lemma unsigned_fixed4 k n :
  unsigned_four_decimals (decimal k ++ "." ++ frac4 n) = true.
Proof.
  destruct (decimal_digits k) as [Hd Hne].
  destruct (all_digits_frac4 n) as [Hf Hl].
  revert Hd Hne Hf Hl.
  generalize (frac4 n) as f. generalize (decimal k) as i.
  intros i f Hd Hne Hf Hl.
  unfold unsigned_four_decimals.
  change (i ++ "." ++ f)%string with (i ++ String "." f)%string.
  rewrite (split_dot_app _ _ Hd), Hd, Hf, Hl.
  destruct (String.eqb_spec i ""); [contradiction|reflexivity].
Qed.

Lemma fixed4_four_decimals neg n : four_decimals (fixed4 neg n) = true.
Proof.
  unfold fixed4.
  pose proof (unsigned_fixed4 (n / 10000) (n mod 10000)) as Hu.
  destruct (decimal_digits (n / 10000)) as [Hd Hne].
  revert Hu Hd Hne.
  generalize (frac4 (n mod 10000)) as f. generalize (decimal (n / 10000)) as i.
  intros i f Hu Hd Hne. destruct neg.
  - exact Hu.
  - destruct i as [|c r]; [contradiction|].
    simpl in Hd. apply andb_prop in Hd as [Hc _].
    change (four_decimals (String c (r ++ "." ++ f)%string) = true).
    unfold four_decimals. rewrite (digit_not_minus _ Hc). exact Hu.
Qed.

(** What [.4f] prints, by the kind of float. *)
Lemma format_4f_shape (v : float) :
  (is_finite v = true -> four_decimals (format_4f v) = true)
  /\ (is_finite v = false ->
        format_4f v = "nan" \/ format_4f v = "inf" \/ format_4f v = "-inf")
  /\ (v = nan -> format_4f v = "nan").
Proof.
  destruct v as [s|s| |s m e]; simpl; repeat split; intros; try discriminate;
    try apply fixed4_four_decimals; auto.
  destruct s; auto.
Qed.

Lemma combine_keys (r : results_t) :
  r = combine (Dict.keys r) (map snd r).
Proof. induction r as [|[k v] r IH]; simpl; [reflexivity|]. now rewrite <- IH. Qed.

End Format.

Section Report.

Context {L : Library}.
Local Open Scope py_scope.

Lemma map_combine_map {A B C D} (F : A -> C -> D) (G : B -> C)
  (ks : list A) (vs : list B) :
  map (fun kv => F (fst kv) (G (snd kv))) (combine ks vs)
  = map (fun kv => F (fst kv) (snd kv)) (combine ks (map G vs)).
Proof.
  revert vs. induction ks as [|k ks IH]; intros [|v vs]; simpl; try reflexivity.
  now rewrite IH.
Qed.

(** C8, as amended: when [main] completes it has printed the header
    line and then one line per method, in the order of the list, each
    the method name left-aligned in a field of forty columns followed by
    the value under the format [.4f].  That text has exactly four
    decimal places when the value is finite, and is [nan], [inf] or
    [-inf] when it is not; a method that failed has the sentinel as its
    value and so prints as [nan]. *)
Theorem report_lines (st st' : State L) :
  main st = (Ok tt, st') ->
  (exists (df : DataFrame L) graph s2 s3 (results : results_t),
      estimate_effects df graph s2 = (Ok results, s3)
      /\ stdout st'
         = stdout st ++ "Estimation results (ATE):"
             :: map (fun nv : string * float =>
                       ("  " ++ ljust 40 (fst nv) ++ " " ++ format_4f (snd nv))%string)
                  results)
  /\ report_printed
       (fun v => four_decimals v = true \/ v = "nan" \/ v = "inf" \/ v = "-inf")
       st st'
  /\ (forall name, ljust 40 name = (name ++ spaces (40 - String.length name))%string)
  /\ (forall v : float,
        (is_finite v = true -> four_decimals (format_4f v) = true)
        /\ (is_finite v = false ->
              format_4f v = "nan" \/ format_4f v = "inf" \/ format_4f v = "-inf"))
  /\ (forall (model : CausalModel L) (estimand : Estimand L) results m s e s',
        attempt model estimand m s = (Raise e, s') ->
        is_Exception e = true ->
        loop_body model estimand results m s = (Ok (Dict.set results m nan), s')
        /\ report_line m nan = ("  " ++ ljust 40 m ++ " nan")%string).
Proof.
  intros Hmain. pose proof (main_cases st) as Hm.
  destruct (load_data st) as [[df|e] s1] eqn:Hd; [|congruence].
  destruct (load_graph s1) as [[graph|e] s2] eqn:Hg; [|congruence].
  destruct (estimate_effects df graph s2) as [[results|e] s3] eqn:He; [|congruence].
  rewrite Hm in Hmain. inversion Hmain; subst st'; clear Hmain Hm.
  assert (Hout : stdout s3 = stdout st).
  { apply estimate_effects_frame in He as (_ & Ho3 & _).
    apply load_graph_inv in Hg as (Ho2 & _).
    apply load_data_stretch in Hd. rewrite Ho3, Ho2. exact (st_stdout _ _ _ _ Hd). }
  split; [|split; [|split; [|split]]].
  - exists df, graph, s2, s3, results. split; [exact He|].
    unfold reported. simpl. now rewrite Hout.
  - exists (map format_4f (map snd results)).
    pose proof (returned_keys _ _ _ _ _ He) as Hk.
    split; [|split].
    + rewrite !length_map. change (length results) with (length (Dict.items results)).
      unfold Dict.items. rewrite <- (length_map fst results).
      change (map fst results) with (Dict.keys results). now rewrite Hk.
    + unfold reported. simpl. rewrite Hout. do 2 f_equal.
      rewrite (combine_keys results) at 1. rewrite Hk.
      change methods with [ "backdoor.propensity_score_matching";
                            "backdoor.propensity_score_weighting";
                            "backdoor.propensity_score_stratification";
                            "backdoor.linear_regression" ].
      exact (map_combine_map
               (fun name text => ("  " ++ ljust 40 name ++ " " ++ text)%string)
               format_4f _ (map snd results)).
    + apply Forall_forall. intros v Hv. apply in_map_iff in Hv as (x & <- & _).
      destruct (format_4f_shape x) as (Hfin & Hinf & _).
      destruct (is_finite x); [left; auto|right; auto].
  - reflexivity.
  - intros v. destruct (format_4f_shape v) as (Hfin & Hinf & _). now split.
  - intros model estimand r m s e s' Ha He'.
    pose proof (loop_body_cases model estimand r m s) as Hc.
    rewrite Ha, He' in Hc. split; [exact Hc|reflexivity].
Qed.

End Report.

(** C8, as stated, fails: an estimate that overflows to infinity is
    printed as [inf], which has no decimal places, in a run in which no
    method failed. *)
Lemma report_inf_counterexample :
  exists st',
    main (Demo.init Demo.overflow) = (Ok tt, st')
    /\ forallb Demo.no_raise (trace st') = true
    /\ nth 2 (stdout st') "" = "  backdoor.propensity_score_weighting      inf"
    /\ ~ report_printed (fun v => four_decimals v = true \/ v = "nan")
           (Demo.init Demo.overflow) st'.
Proof.
  eexists. split; [vm_compute; reflexivity|].
  split; [vm_compute; reflexivity|]. split; [vm_compute; reflexivity|].
  intros (vs & Hlen & Hout & Hall).
  destruct vs as [|v1 [|v2 [|v3 [|v4 [|v5 vs]]]]]; try discriminate Hlen.
  vm_compute in Hout. inversion Hout; subst.
  inversion Hall as [|? ? _ Hall2]; subst.
  inversion Hall2 as [|? ? H2 _]; subst.
  destruct H2 as [H2|H2]; vm_compute in H2; discriminate H2.
Qed.

(** ** The theorems at concrete runs *)

Lemma two_fail_ordinary : ordinary_failures (Demo.lib Demo.two_fail).
Proof.
  repeat split.
  - intros model estimand m w e w' H. simpl in H. unfold Demo.two_fail in H. simpl in H.
    destruct (String.eqb m "backdoor.propensity_score_matching");
      [inversion H; reflexivity|].
    destruct (String.eqb m "backdoor.propensity_score_stratification"); discriminate H.
  - intros est w e w' H. discriminate H.
  - intros x w e w' H. simpl in H. destruct x; inversion H. reflexivity.
Defined.

Lemma all_fail_ordinary : ordinary_failures (Demo.lib Demo.all_fail).
Proof.
  repeat split.
  - intros model estimand m w e w' H. inversion H. reflexivity.
  - intros est w e w' H. discriminate H.
  - intros x w e w' H. simpl in H. destruct x; inversion H. reflexivity.
Defined.

(** Matching fails numerically and stratification has no value: both are
    recorded as [nan], and linear regression is still estimated. *)
Lemma estimate_effects_isolates_failures_witness :
  exists r s3,
    estimate_effects (Demo.frame Demo.two_fail) 0 (Demo.ready Demo.two_fail) = (Ok r, s3)
    /\ Dict.get r "backdoor.propensity_score_stratification" = Some nan
    /\ Dict.get r "backdoor.linear_regression" = Some Demo.quarter.
Proof.
  eexists. eexists. split; [vm_compute; reflexivity|]. split; [|reflexivity].
  refine (proj1 (proj2
    (estimate_effects_isolates_failures (L := Demo.lib Demo.two_fail)
       (Demo.frame Demo.two_fail) 0 (Demo.ready Demo.two_fail) tt tt _
       [ "backdoor.propensity_score_matching"; "backdoor.propensity_score_weighting" ]
       "backdoor.propensity_score_stratification"
       [ "backdoor.linear_regression" ]
       _ _ Demo.TypeError _ _ _ _ _ _)) _ _ _).
  - vm_compute; reflexivity.
  - reflexivity.
  - vm_compute; reflexivity.
  - vm_compute; reflexivity.
  - reflexivity.
  - vm_compute; reflexivity.
Defined.

Lemma boundary_catches_only_Exception_witness :
  exists s2,
    estimate_effects (Demo.frame Demo.interrupted) 0 (Demo.ready Demo.interrupted)
    = (Raise Demo.Interrupt, s2).
Proof.
  eexists.
  refine (proj1 (proj2
    (boundary_catches_only_Exception (L := Demo.lib Demo.interrupted)
       (Demo.frame Demo.interrupted) 0 (Demo.ready Demo.interrupted) tt tt _
       [ "backdoor.propensity_score_matching" ]
       "backdoor.propensity_score_weighting"
       [ "backdoor.propensity_score_stratification"; "backdoor.linear_regression" ]
       _ _ Demo.Interrupt _ _ _ _ _ _))).
  - vm_compute; reflexivity.
  - reflexivity.
  - vm_compute; reflexivity.
  - vm_compute; reflexivity.
  - reflexivity.
Defined.

Lemma estimate_effects_keys_witness :
  exists r s',
    estimate_effects (Demo.frame Demo.two_fail) 0 (Demo.ready Demo.two_fail) = (Ok r, s')
    /\ Dict.keys r = [ "backdoor.propensity_score_matching";
                       "backdoor.propensity_score_weighting";
                       "backdoor.propensity_score_stratification";
                       "backdoor.linear_regression" ].
Proof.
  eexists. eexists. split; [vm_compute; reflexivity|].
  refine (proj1 (estimate_effects_keys (L := Demo.lib Demo.two_fail)
                   (Demo.frame Demo.two_fail) 0 (Demo.ready Demo.two_fail) _ _ _)).
  vm_compute; reflexivity.
Defined.

Lemma estimate_effects_runs_four_in_order_witness :
  exists r st',
    estimate_effects (Demo.frame Demo.all_fail) 0 (Demo.ready Demo.all_fail) = (Ok r, st')
    /\ estimate_log (trace st')
       = sequential [ "backdoor.propensity_score_matching";
                      "backdoor.propensity_score_weighting";
                      "backdoor.propensity_score_stratification";
                      "backdoor.linear_regression" ].
Proof.
  eexists. eexists. split; [vm_compute; reflexivity|].
  refine (proj1 (proj2
    (estimate_effects_runs_four_in_order (L := Demo.lib Demo.all_fail)
       (Demo.frame Demo.all_fail) 0 (Demo.ready Demo.all_fail))) _ _ _).
  vm_compute; reflexivity.
Defined.

(** The preprocessing raises [KeyError]; the graph file is missing. *)
Lemma loading_failures_are_fatal_witness :
  (exists s1, run_script (Demo.init Demo.bad_columns) = (Uncaught Demo.KeyError, s1)
              /\ stdout s1 = [])
  /\ (exists s2, run_script (Demo.init Demo.no_graph_file)
                 = (Uncaught Demo.FileNotFoundError, s2)
                 /\ stdout s2 = []).
Proof.
  split.
  - eexists.
    refine ((fun H => conj (proj1 (proj2 H)) (proj2 (proj2 (proj2 H))))
              (proj1 (loading_failures_are_fatal (L := Demo.lib Demo.bad_columns)
                        (Demo.init Demo.bad_columns)) Demo.KeyError _ _)).
    vm_compute; reflexivity.
  - eexists.
    refine ((fun H => conj (proj1 (proj2 H)) (proj2 (proj2 (proj2 H))))
              (proj1 (proj2 (loading_failures_are_fatal (L := Demo.lib Demo.no_graph_file)
                               (Demo.init Demo.no_graph_file)))
                 _ _ Demo.FileNotFoundError _ _ _)).
    + vm_compute; reflexivity.
    + vm_compute; reflexivity.
Defined.

(** The model constructor, or the identification, raises [KeyError], an
    [Exception]: it is not turned into a sentinel. *)
Lemma model_built_once_outside_boundary_witness :
  (exists s',
      estimate_effects (Demo.frame Demo.bad_model) 0 (Demo.ready Demo.bad_model)
      = (Raise Demo.KeyError, s')
      /\ is_Exception Demo.KeyError = true
      /\ estimate_log (trace s') = [])
  /\ (exists s',
      estimate_effects (Demo.frame Demo.bad_identify) 0 (Demo.ready Demo.bad_identify)
      = (Raise Demo.KeyError, s')
      /\ is_Exception Demo.KeyError = true
      /\ estimate_log (trace s') = []).
Proof.
  split.
  - refine ((fun H => match H with
                      | ex_intro _ s' (conj Hrun (conj _ (conj Hlog _))) =>
                          ex_intro _ s' (conj Hrun (conj eq_refl Hlog))
                      end)
              (proj1 (model_built_once_outside_boundary (L := Demo.lib Demo.bad_model)
                        (Demo.frame Demo.bad_model) 0 (Demo.ready Demo.bad_model))
                 _ _ _ _ _ Demo.KeyError _ _ _ _ _)).
    + vm_compute; reflexivity.
    + vm_compute; reflexivity.
    + vm_compute; reflexivity.
    + vm_compute; reflexivity.
  - refine ((fun H => match H with
                      | ex_intro _ s' (conj Hrun (conj _ (conj Hlog _))) =>
                          ex_intro _ s' (conj Hrun (conj eq_refl Hlog))
                      end)
              (proj1 (proj2
                 (model_built_once_outside_boundary (L := Demo.lib Demo.bad_identify)
                    (Demo.frame Demo.bad_identify) 0 (Demo.ready Demo.bad_identify)))
                 _ _ _ _ _ _ _ Demo.KeyError _ _ _ _ _ _)).
    + vm_compute; reflexivity.
    + vm_compute; reflexivity.
    + vm_compute; reflexivity.
    + vm_compute; reflexivity.
    + vm_compute; reflexivity.
Defined.

Lemma load_data_calls_preprocessor_witness :
  trace (snd (load_data (Demo.init Demo.all_fine)))
  = [ Call OpChooseColumns; Return OpChooseColumns;
      Call (OpPreprocess (Demo.frame Demo.all_fine)
              (mkOptions half "drop" "median" "Y11_Q57"));
      Return (OpPreprocess (Demo.frame Demo.all_fine)
                (mkOptions half "drop" "median" "Y11_Q57")) ].
Proof.
  exact (proj1 (proj2 (proj2
    (load_data_calls_preprocessor (L := Demo.lib Demo.all_fine)
       (Demo.init Demo.all_fine) (Demo.frame Demo.all_fine) 1 eq_refl)))).
Defined.

(** All four methods fail, and the exit code is 0. *)
Lemma exit_code_zero_on_completion_witness :
  exists s', run_script (Demo.init Demo.all_fail) = (Exited 0, s').
Proof.
  refine ((fun H => match H with
                    | ex_intro _ results (ex_intro _ s4 (conj _ Hexit)) =>
                        ex_intro _ (reported results s4) Hexit
                    end)
            (proj2 (proj2 (exit_code_zero_on_completion (L := Demo.lib Demo.all_fail)
                             (Demo.init Demo.all_fail)))
               all_fail_ordinary (Demo.frame Demo.all_fail) _ 0 _ (tt, tt) _ _ _ _)).
  - vm_compute; reflexivity.
  - vm_compute; reflexivity.
  - vm_compute; reflexivity.
Defined.

Lemma report_lines_witness :
  exists st',
    main (Demo.init Demo.two_fail) = (Ok tt, st')
    /\ stdout st'
       = [ "Estimation results (ATE):";
           "  backdoor.propensity_score_matching       nan";
           "  backdoor.propensity_score_weighting      0.2500";
           "  backdoor.propensity_score_stratification nan";
           "  backdoor.linear_regression               0.2500" ]
    /\ report_printed
         (fun v => four_decimals v = true \/ v = "nan" \/ v = "inf" \/ v = "-inf")
         (Demo.init Demo.two_fail) st'.
Proof.
  eexists. split; [vm_compute; reflexivity|]. split; [vm_compute; reflexivity|].
  refine (proj1 (proj2 (report_lines (L := Demo.lib Demo.two_fail)
                          (Demo.init Demo.two_fail) _ _))).
  vm_compute; reflexivity.
Defined.

Lemma graph_loaded_once_never_mutated_witness :
  exists s',
    main (Demo.init Demo.all_fine) = (Ok tt, s')
    /\ calls is_PickleLoad (trace s') = 1
    /\ heap s' = heap (Demo.ready Demo.all_fine).
Proof.
  eexists. split; [vm_compute; reflexivity|]. split.
  - refine (proj1 (proj2 (proj2
      (graph_loaded_once_never_mutated (L := Demo.lib Demo.all_fine)
         (Demo.init Demo.all_fine)))) _ _).
    vm_compute; reflexivity.
  - vm_compute; reflexivity.
Defined.

(** ** Beyond the claims: the data flow and the stages of a run *)

Section Flow.

Context {L : Library}.
Local Open Scope py_scope.

Lemma called_app (a b : list (event L)) : called (a ++ b) = called a ++ called b.
Proof.
  induction a as [|ev a IH]; simpl; [reflexivity|].
  destruct ev; simpl; now rewrite IH.
Qed.

Lemma estimate_args_app (a b : list (event L)) :
  estimate_args (a ++ b) = estimate_args a ++ estimate_args b.
Proof.
  induction a as [|ev a IH]; simpl; [reflexivity|].
  destruct ev as [o|o|o e]; try destruct o; simpl; now rewrite IH.
Qed.

(** The equations of the stages, by the outcomes of their library calls. *)
Lemma load_data_eq (st : State L) df0 w1 df w2 :
  choose_columns L (world st) = (Ok df0, w1) ->
  preprocess_data L df0 load_data_options w1 = (Ok df, w2) ->
  load_data st
  = (Ok df, mkState w2 (heap st) (stdout st)
              (trace st ++ [ Call OpChooseColumns; Return OpChooseColumns;
                             Call (OpPreprocess df0 load_data_options);
                             Return (OpPreprocess df0 load_data_options) ])).
Proof.
  intros H1 H2. unfold load_data, bind, call, ret. simpl. rewrite H1. simpl.
  rewrite H2. unfold log, set_world. simpl. now rewrite <- !app_assoc.
Qed.

Lemma load_graph_eq (s : State L) f w1 g w2 :
  open_rb L (@GRAPH_PATH L) (world s) = (Ok f, w1) ->
  pickle_load L f w1 = (Ok g, w2) ->
  load_graph s
  = (Ok (length (heap s)),
     mkState (close L f w2) (heap s ++ [g]) (stdout s)
       (trace s ++ [ Call (OpOpen (@GRAPH_PATH L)); Return (OpOpen (@GRAPH_PATH L));
                     Call (OpPickleLoad f); Return (OpPickleLoad f) ])).
Proof.
  intros H1 H2. unfold load_graph, with_file, bind, call, alloc. simpl. rewrite H1. simpl.
  rewrite H2. unfold log, set_world. simpl. now rewrite <- !app_assoc.
Qed.

Lemma build_model_eq (df : DataFrame L) graph (s : State L)
  g dot w1 gs w2 model w3 estimand w4 :
  nth_error (heap s) graph = Some g ->
  to_pydot L g (world s) = (Ok dot, w1) ->
  to_string L dot w1 = (Ok gs, w2) ->
  new_CausalModel L df TREATMENT OUTCOME gs w2 = (Ok model, w3) ->
  identify_effect L model w3 = (Ok estimand, w4) ->
  build_model df graph s
  = (Ok (model, estimand),
     mkState w4 (heap s) (stdout s)
       (trace s ++ [ Call (OpToPydot graph); Return (OpToPydot graph);
                     Call (OpToString dot); Return (OpToString dot);
                     Call (OpCausalModel df TREATMENT OUTCOME gs);
                     Return (OpCausalModel df TREATMENT OUTCOME gs);
                     Call (OpIdentifyEffect model); Return (OpIdentifyEffect model) ])).
Proof.
  intros Hg H1 H2 H3 H4. unfold build_model.
  assert (Hd : deref graph s = (Ok g, s)) by (unfold deref; now rewrite Hg).
  rewrite (bind_ok _ _ _ _ _ Hd).
  erewrite bind_ok by (apply call_eq; exact H1).
  erewrite bind_ok by (apply call_eq; exact H2).
  erewrite bind_ok by (apply call_eq; exact H3).
  erewrite bind_ok by (apply call_eq; exact H4).
  unfold ret. cbn [ending heap stdout trace]. now rewrite <- !app_assoc.
Qed.

Lemma attempt_ok_eq (model : CausalModel L) (estimand : Estimand L) m (s : State L)
  est w1 x w2 v w3 :
  estimate_effect L model estimand m (world s) = (Ok est, w1) ->
  value L est w1 = (Ok x, w2) ->
  to_float L x w2 = (Ok v, w3) ->
  attempt model estimand m s
  = (Ok v, mkState w3 (heap s) (stdout s)
             (trace s ++ [ Call (OpEstimateEffect model estimand m);
                           Return (OpEstimateEffect model estimand m);
                           Call (OpValue est); Return (OpValue est);
                           Call (OpFloat x); Return (OpFloat x) ])).
Proof.
  intros H1 H2 H3. unfold attempt.
  erewrite bind_ok by (apply call_eq; exact H1).
  erewrite bind_ok by (apply call_eq; exact H2).
  erewrite call_eq by exact H3.
  cbn [ending heap stdout trace]. now rewrite <- !app_assoc.
Qed.

(** The loop from the method [m] on, once [pre] is done. *)
Lemma loop_from (df : DataFrame L) graph st
  (model : CausalModel L) (estimand : Estimand L) s0 pre m post r1 s1 :
  build_model df graph st = (Ok (model, estimand), s0) ->
  methods = pre ++ m :: post ->
  for_methods model estimand pre Dict.empty s0 = (Ok r1, s1) ->
  estimate_effects df graph st
  = bind (loop_body model estimand r1 m)
         (fun r => for_methods model estimand post r) s1.
Proof.
  intros Hb Hsplit Hpre.
  rewrite (estimate_effects_eq _ _ _ _ _ _ Hb), Hsplit.
  now rewrite (for_methods_app _ _ _ _ _ _ _ _ Hpre).
Qed.

(** X1: the value of a method that succeeds is the float of its
    estimate's [value]: it is the method's entry in the mapping returned,
    and the next method starts in the world the conversion left. *)
Theorem estimate_effects_records_value
  (df : DataFrame L) (graph : gref) (st : State L)
  (model : CausalModel L) (estimand : Estimand L) (s0 : State L)
  (pre : list string) (m : string) (post : list string)
  (r1 : results_t) (s1 : State L)
  (est : CausalEstimate L) (w1 : W L) (x : PyObj L) (w2 : W L)
  (v : float) (w3 : W L) :
  build_model df graph st = (Ok (model, estimand), s0) ->
  methods = pre ++ m :: post ->
  for_methods model estimand pre Dict.empty s0 = (Ok r1, s1) ->
  estimate_effect L model estimand m (world s1) = (Ok est, w1) ->
  value L est w1 = (Ok x, w2) ->
  to_float L x w2 = (Ok v, w3) ->
  exists s2,
    world s2 = w3 /\ heap s2 = heap s1 /\ stdout s2 = stdout s1
    /\ estimate_effects df graph st
       = for_methods model estimand post (Dict.set r1 m v) s2
    /\ (forall r s3, estimate_effects df graph st = (Ok r, s3) ->
          Dict.get r m = Some v).
Proof.
  intros Hb Hsplit Hpre H1 H2 H3.
  pose proof (attempt_ok_eq model estimand m s1 _ _ _ _ _ _ H1 H2 H3) as Ha.
  eexists. split; [|split; [|split; [|split]]].
  4:{ rewrite (loop_from _ _ _ _ _ _ _ _ _ _ _ Hb Hsplit Hpre).
      pose proof (loop_body_cases model estimand r1 m s1) as Hc.
      rewrite Ha in Hc. rewrite (bind_ok _ _ _ _ _ Hc). reflexivity. }
  1-3: reflexivity.
  intros r s3 Hr.
  rewrite (loop_from _ _ _ _ _ _ _ _ _ _ _ Hb Hsplit Hpre) in Hr.
  pose proof (loop_body_cases model estimand r1 m s1) as Hc.
  rewrite Ha in Hc. rewrite (bind_ok _ _ _ _ _ Hc) in Hr.
  assert (Hnotin : ~ In m post).
  { apply (NoDup_split_notin pre). rewrite <- Hsplit. apply methods_NoDup. }
  rewrite (for_methods_get _ _ _ _ _ _ _ _ Hr Hnotin). apply get_set_same.
Qed.

Lemma after_caught (df : DataFrame L) graph st
  (model : CausalModel L) (estimand : Estimand L) s0 pre m post r1 s1 e s2 :
  build_model df graph st = (Ok (model, estimand), s0) ->
  methods = pre ++ m :: post ->
  for_methods model estimand pre Dict.empty s0 = (Ok r1, s1) ->
  is_Exception e = true ->
  attempt model estimand m s1 = (Raise e, s2) ->
  estimate_effects df graph st
  = for_methods model estimand post (Dict.set r1 m nan) s2.
Proof.
  intros Hb Hsplit Hpre He Ha.
  rewrite (loop_from _ _ _ _ _ _ _ _ _ _ _ Hb Hsplit Hpre).
  pose proof (loop_body_cases model estimand r1 m s1) as Hc.
  rewrite Ha, He in Hc. now rewrite (bind_ok _ _ _ _ _ Hc).
Qed.

(** X2: each of the three steps inside [try] is covered: when the call
    of [estimate_effect], the read of [value] or the conversion by
    [float] raises below [Exception], the method gets [nan], and the
    loop goes on in the world the failed step left (nothing is rolled
    back). *)
Theorem boundary_covers_each_step
  (df : DataFrame L) (graph : gref) (st : State L)
  (model : CausalModel L) (estimand : Estimand L) (s0 : State L)
  (pre : list string) (m : string) (post : list string)
  (r1 : results_t) (s1 : State L) (e : exn) :
  build_model df graph st = (Ok (model, estimand), s0) ->
  methods = pre ++ m :: post ->
  for_methods model estimand pre Dict.empty s0 = (Ok r1, s1) ->
  is_Exception e = true ->
  (forall w1,
      estimate_effect L model estimand m (world s1) = (Raise e, w1) ->
      exists s2, world s2 = w1
        /\ estimate_effects df graph st
           = for_methods model estimand post (Dict.set r1 m nan) s2)
  /\ (forall est w1 w2,
        estimate_effect L model estimand m (world s1) = (Ok est, w1) ->
        value L est w1 = (Raise e, w2) ->
        exists s2, world s2 = w2
          /\ estimate_effects df graph st
             = for_methods model estimand post (Dict.set r1 m nan) s2)
  /\ (forall est w1 x w2 w3,
        estimate_effect L model estimand m (world s1) = (Ok est, w1) ->
        value L est w1 = (Ok x, w2) ->
        to_float L x w2 = (Raise e, w3) ->
        exists s2, world s2 = w3
          /\ estimate_effects df graph st
             = for_methods model estimand post (Dict.set r1 m nan) s2).
Proof.
  intros Hb Hsplit Hpre He. split; [|split].
  - intros w1 H1. eexists. split; [|eapply after_caught; eauto].
    2:{ unfold attempt, bind, call. simpl. rewrite H1. reflexivity. }
    reflexivity.
  - intros est w1 w2 H1 H2. eexists. split; [|eapply after_caught; eauto].
    2:{ unfold attempt, bind, call. simpl. rewrite H1. simpl. rewrite H2. reflexivity. }
    reflexivity.
  - intros est w1 x w2 w3 H1 H2 H3. eexists. split; [|eapply after_caught; eauto].
    2:{ unfold attempt, bind, call. simpl. rewrite H1. simpl. rewrite H2. simpl.
        rewrite H3. reflexivity. }
    reflexivity.
Qed.

Ltac called_calc := simpl; rewrite ?called_app; simpl; try reflexivity.

(** X3: [estimate_effects] serializes the graph it is given with
    [to_pydot] and then [to_string], constructs the model from the table
    it is given, the treatment [Y11_Q57], the outcome [Y11_MWIndex] and
    that string, identifies the effect on that model, in this order,
    and runs the loop with that model and estimand. *)
Theorem estimate_effects_builds_model
  (df : DataFrame L) (graph : gref) (st : State L)
  (g : DiGraph L) (dot : Dot L) (w1 : W L) (gs : string) (w2 : W L)
  (model : CausalModel L) (w3 : W L) (estimand : Estimand L) (w4 : W L) :
  nth_error (heap st) graph = Some g ->
  to_pydot L g (world st) = (Ok dot, w1) ->
  to_string L dot w1 = (Ok gs, w2) ->
  new_CausalModel L df "Y11_Q57" "Y11_MWIndex" gs w2 = (Ok model, w3) ->
  identify_effect L model w3 = (Ok estimand, w4) ->
  exists s0,
    world s0 = w4
    /\ called (trace s0)
       = called (trace st)
         ++ [ OpToPydot graph; OpToString dot;
              OpCausalModel df "Y11_Q57" "Y11_MWIndex" gs;
              OpIdentifyEffect model ]
    /\ estimate_effects df graph st
       = for_methods model estimand methods Dict.empty s0.
Proof.
  intros Hg H1 H2 H3 H4.
  pose proof (build_model_eq df graph st _ _ _ _ _ _ _ _ _ Hg H1 H2 H3 H4) as Hb.
  eexists. split; [|split; [|exact (estimate_effects_eq _ _ _ _ _ _ Hb)]].
  - reflexivity.
  - called_calc.
Qed.

Lemma call_args {A} (o : op L) (f : W L -> Res A * W L) s r s' :
  call o f s = (r, s') ->
  estimate_args (trace s') = estimate_args (trace s) ++ estimate_args [Call o].
Proof.
  intros H. apply call_inv in H as (_ & _ & _ & Ht).
  rewrite Ht, estimate_args_app. f_equal.
  destruct o; destruct r; reflexivity.
Qed.

Lemma attempt_args (model : CausalModel L) (estimand : Estimand L) m s r s' :
  attempt model estimand m s = (r, s') ->
  estimate_args (trace s') = estimate_args (trace s) ++ [(model, estimand, m)].
Proof.
  unfold attempt. intros H.
  apply bind_inv in H as [(est & s1 & H1 & H)|(e & H1 & ->)];
    apply call_args in H1; simpl in H1; [|exact H1].
  apply bind_inv in H as [(x & s2 & H2 & H)|(e & H2 & ->)];
    apply call_args in H2; simpl in H2; rewrite app_nil_r in H2.
  - apply call_args in H. simpl in H. rewrite app_nil_r in H. congruence.
  - congruence.
Qed.

Lemma for_methods_args (model : CausalModel L) (estimand : Estimand L)
  ms results s r s' :
  for_methods model estimand ms results s = (r, s') ->
  exists k, k <= length ms
    /\ estimate_args (trace s')
       = estimate_args (trace s)
         ++ map (fun m => (model, estimand, m)) (firstn k ms)
    /\ (forall r', r = Ok r' -> k = length ms).
Proof.
  revert results s. induction ms as [|m ms IH]; intros results s H; simpl in H.
  - unfold ret in H. inversion H; subst. exists 0. simpl. rewrite app_nil_r.
    repeat split; auto.
  - assert (Hbody : forall r1 s1, loop_body model estimand results m s = (r1, s1) ->
              estimate_args (trace s1)
              = estimate_args (trace s) ++ [(model, estimand, m)]).
    { intros r1 s1 Hl. pose proof (loop_body_cases model estimand results m s) as Hc.
      destruct (attempt model estimand m s) as [[v|e] s2] eqn:Ha;
        apply attempt_args in Ha; rewrite Hc in Hl;
        [|destruct (is_Exception e)]; inversion Hl; subst; exact Ha. }
    apply bind_inv in H as [(r1 & s1 & H1 & H)|(e & H1 & ->)].
    + destruct (IH _ _ H) as (k & Hk & Hs & Hfull).
      exists (S k). split; [simpl; lia|]. split.
      * rewrite Hs, (Hbody _ _ H1). simpl. now rewrite <- app_assoc.
      * intros r' Hr. simpl. f_equal. eauto.
    + exists 1. split; [simpl; lia|]. split; [|discriminate].
      rewrite (Hbody _ _ H1). simpl. now destruct ms.
Qed.

(** X4: every call of [estimate_effect] in a run passes the model that
    the constructor returned and the estimand that [identify_effect]
    returned, with the method names of the list in its order: the
    estimand is identified once and reused for all four methods. *)
Theorem estimate_calls_share_model
  (df : DataFrame L) (graph : gref) (st : State L)
  (model : CausalModel L) (estimand : Estimand L) (s0 : State L)
  (r : Res results_t) (s' : State L) :
  build_model df graph st = (Ok (model, estimand), s0) ->
  estimate_effects df graph st = (r, s') ->
  exists k, k <= 4
    /\ estimate_args (trace s')
       = estimate_args (trace s0)
         ++ map (fun m => (model, estimand, m))
              (firstn k [ "backdoor.propensity_score_matching";
                          "backdoor.propensity_score_weighting";
                          "backdoor.propensity_score_stratification";
                          "backdoor.linear_regression" ])
    /\ (forall r', r = Ok r' -> k = 4).
Proof.
  intros Hb Hrun. rewrite (estimate_effects_eq _ _ _ _ _ _ Hb) in Hrun.
  exact (for_methods_args _ _ _ _ _ _ _ Hrun).
Qed.

End Flow.

Section Stages.

Context {L : Library}.
Local Open Scope py_scope.

Ltac called_done :=
  simpl; rewrite ?called_app; simpl; rewrite ?app_nil_r, <- ?app_assoc; reflexivity.

(** X5: the report is all or nothing.  When [main] ends with an
    exception, whether of the loading, of the model or from inside the
    loop, it has printed nothing, not even the header; when it completes
    it has printed five lines. *)
Theorem report_all_or_nothing (st : State L) :
  (forall e s', main st = (Raise e, s') -> stdout s' = stdout st)
  /\ (forall s', main st = (Ok tt, s') ->
        exists lines, stdout s' = stdout st ++ lines /\ length lines = 5).
Proof.
  pose proof (main_cases st) as Hm.
  destruct (load_data st) as [[df|e0] s1] eqn:Hd.
  2:{ split; intros; rewrite Hm in H; inversion H; subst.
      apply load_data_stretch in Hd. exact (st_stdout _ _ _ _ Hd). }
  apply load_data_stretch in Hd. pose proof (st_stdout _ _ _ _ Hd) as Ho1.
  destruct (load_graph s1) as [[graph|e0] s2] eqn:Hg.
  2:{ split; intros; rewrite Hm in H; inversion H; subst.
      apply load_graph_inv in Hg as (Ho2 & _). congruence. }
  apply load_graph_inv in Hg as (Ho2 & _).
  destruct (estimate_effects df graph s2) as [[results|e0] s3] eqn:He.
  2:{ split; intros; rewrite Hm in H; inversion H; subst.
      apply estimate_effects_frame in He as (_ & Ho3 & _). congruence. }
  pose proof (returned_keys _ _ _ _ _ He) as Hk.
  apply estimate_effects_frame in He as (_ & Ho3 & _).
  split; intros; rewrite Hm in H; inversion H; subst.
  exists (header :: map (fun nv => report_line (fst nv) (snd nv)) results).
  split; [simpl; congruence|].
  simpl. rewrite length_map. f_equal.
  rewrite <- (length_map fst results). change (map fst results) with (Dict.keys results).
  now rewrite Hk.
Qed.

(** X6: [main] stops at the first stage that fails and makes no later
    library call: after a failed column selection the preprocessor is
    not called; after a failed preprocessing the graph file is not
    opened; after a failed [open] nothing is unpickled; after a failed
    [pickle.load] the graph is not serialized and no model is built. *)
Theorem main_stops_at_first_failure (st : State L) :
  (forall e w,
      choose_columns L (world st) = (Raise e, w) ->
      exists s', main st = (Raise e, s')
        /\ called (trace s') = called (trace st) ++ [ OpChooseColumns ])
  /\ (forall df0 w e w',
        choose_columns L (world st) = (Ok df0, w) ->
        preprocess_data L df0 load_data_options w = (Raise e, w') ->
        exists s', main st = (Raise e, s')
          /\ called (trace s')
             = called (trace st)
               ++ [ OpChooseColumns; OpPreprocess df0 load_data_options ])
  /\ (forall df s1 e w,
        load_data st = (Ok df, s1) ->
        open_rb L (@GRAPH_PATH L) (world s1) = (Raise e, w) ->
        exists s', main st = (Raise e, s')
          /\ called (trace s') = called (trace s1) ++ [ OpOpen (@GRAPH_PATH L) ])
  /\ (forall df s1 f w e w',
        load_data st = (Ok df, s1) ->
        open_rb L (@GRAPH_PATH L) (world s1) = (Ok f, w) ->
        pickle_load L f w = (Raise e, w') ->
        exists s', main st = (Raise e, s')
          /\ world s' = close L f w'
          /\ called (trace s')
             = called (trace s1) ++ [ OpOpen (@GRAPH_PATH L); OpPickleLoad f ]).
Proof.
  split; [|split; [|split]].
  - intros e w H. unfold main, load_data, bind, call. simpl. rewrite H.
    eexists. split; [reflexivity|]. called_done.
  - intros df0 w e w' H1 H2. unfold main, load_data, bind, call. simpl.
    rewrite H1. simpl. rewrite H2.
    eexists. split; [reflexivity|]. called_done.
  - intros df s1 e w Hd Ho. unfold main. rewrite (bind_ok _ _ _ _ _ Hd).
    unfold load_graph, bind, call. simpl. rewrite Ho.
    eexists. split; [reflexivity|]. called_done.
  - intros df s1 f w e w' Hd Ho Hp. unfold main. rewrite (bind_ok _ _ _ _ _ Hd).
    unfold load_graph, with_file, bind, call. simpl. rewrite Ho. simpl. rewrite Hp.
    eexists. split; [reflexivity|]. split; [reflexivity|].
    called_done.
Qed.

(** X7: when the file opens and unpickles, [load_graph] returns a
    reference that was not live before and now refers to the graph
    unpickled; the file has been closed; and every graph object that was
    on the heap is still there, unchanged. *)
Theorem load_graph_returns_fresh_reference
  (s : State L) (f : File L) (w1 : W L) (g : DiGraph L) (w2 : W L) :
  open_rb L (@GRAPH_PATH L) (world s) = (Ok f, w1) ->
  pickle_load L f w1 = (Ok g, w2) ->
  exists graph s',
    load_graph s = (Ok graph, s')
    /\ world s' = close L f w2
    /\ nth_error (heap s) graph = None
    /\ deref graph s' = (Ok g, s')
    /\ (forall r g0, nth_error (heap s) r = Some g0 ->
          nth_error (heap s') r = Some g0).
Proof.
  intros H1 H2. rewrite (load_graph_eq s _ _ _ _ H1 H2).
  eexists. eexists. split; [reflexivity|]. split; [reflexivity|]. split; [|split].
  - apply nth_error_None. lia.
  - unfold deref, ret. simpl. rewrite nth_error_app2 by lia.
    now rewrite Nat.sub_diag.
  - intros r g0 Hr. simpl. rewrite nth_error_app1; [exact Hr|].
    apply nth_error_Some. congruence.
Qed.

(** X8: the data flow of [main] up to the loop.  The table that the
    preprocessor returns is the one the model is constructed from; the
    graph that [pickle.load] returns is the one serialized, after the
    file is closed; the eight library calls are made in this order; and
    the rest of the run is the loop and the report with that model and
    estimand. *)
Theorem main_data_flow
  (st : State L) (df0 : DataFrame L) (w1 : W L) (df : DataFrame L) (w2 : W L)
  (f : File L) (w3 : W L) (g : DiGraph L) (w4 : W L)
  (dot : Dot L) (w5 : W L) (gs : string) (w6 : W L)
  (model : CausalModel L) (w7 : W L) (estimand : Estimand L) (w8 : W L) :
  choose_columns L (world st) = (Ok df0, w1) ->
  preprocess_data L df0 load_data_options w1 = (Ok df, w2) ->
  open_rb L (@GRAPH_PATH L) w2 = (Ok f, w3) ->
  pickle_load L f w3 = (Ok g, w4) ->
  to_pydot L g (close L f w4) = (Ok dot, w5) ->
  to_string L dot w5 = (Ok gs, w6) ->
  new_CausalModel L df TREATMENT OUTCOME gs w6 = (Ok model, w7) ->
  identify_effect L model w7 = (Ok estimand, w8) ->
  exists s0,
    world s0 = w8
    /\ heap s0 = heap st ++ [g]
    /\ stdout s0 = stdout st
    /\ called (trace s0)
       = called (trace st)
         ++ [ OpChooseColumns; OpPreprocess df0 load_data_options;
              OpOpen (@GRAPH_PATH L); OpPickleLoad f;
              OpToPydot (length (heap st)); OpToString dot;
              OpCausalModel df TREATMENT OUTCOME gs; OpIdentifyEffect model ]
    /\ main st = estimate_and_report model estimand s0.
Proof.
  intros H1 H2 H3 H4 H5 H6 H7 H8.
  pose proof (load_data_eq st _ _ _ _ H1 H2) as Hd.
  set (s1 := mkState w2 (heap st) (stdout st)
               (trace st ++ [ Call OpChooseColumns; Return OpChooseColumns;
                              Call (OpPreprocess df0 load_data_options);
                              Return (OpPreprocess df0 load_data_options) ])) in *.
  pose proof (load_graph_eq s1 _ _ _ _ H3 H4) as Hg.
  set (s2 := mkState (close L f w4) (heap s1 ++ [g]) (stdout s1)
               (trace s1 ++ [ Call (OpOpen (@GRAPH_PATH L)); Return (OpOpen (@GRAPH_PATH L));
                              Call (OpPickleLoad f); Return (OpPickleLoad f) ])) in *.
  assert (Hn : nth_error (heap s2) (length (heap s1)) = Some g).
  { simpl. rewrite nth_error_app2 by lia. now rewrite Nat.sub_diag. }
  pose proof (build_model_eq df (length (heap s1)) s2 _ _ _ _ _ _ _ _ _ Hn H5 H6 H7 H8)
    as Hb.
  eexists. split; [|split; [|split; [|split]]].
  5:{ unfold main. rewrite (bind_ok _ _ _ _ _ Hd), (bind_ok _ _ _ _ _ Hg).
      unfold estimate_effects, estimate_and_report, bind at 1 2.
      rewrite Hb. reflexivity. }
  - reflexivity.
  - reflexivity.
  - reflexivity.
  - called_done.
Qed.

End Stages.

Section Columns.

Lemma length_append (a b : string) :
  String.length (a ++ b) = String.length a + String.length b.
Proof. induction a as [|c a IH]; simpl; [reflexivity|now rewrite IH]. Qed.

Lemma length_spaces n : String.length (spaces n) = n.
Proof. unfold spaces. induction n as [|n IH]; simpl; [reflexivity|now rewrite IH]. Qed.

Lemma substring_whole (b : string) : substring 0 (String.length b) b = b.
Proof. induction b as [|c b IH]; simpl; [reflexivity|now rewrite IH]. Qed.

Lemma substring_after (a b : string) :
  substring (String.length a) (String.length b) (a ++ b) = b.
Proof. induction a as [|c a IH]; simpl; [apply substring_whole|exact IH]. Qed.

Lemma substring_front (a b : string) : substring 0 (String.length a) (a ++ b) = a.
Proof.
  induction a as [|c a IH]; simpl; [now destruct b|now rewrite IH].
Qed.

Lemma append_assoc (a b c : string) : ((a ++ b) ++ c = a ++ b ++ c)%string.
Proof. induction a as [|x a IH]; simpl; [reflexivity|now rewrite IH]. Qed.

(** X9: the columns of a report line.  After an indent of two spaces
    the name is printed whole, never truncated; the field before the
    value is [3 + max 40 (length name)] characters wide, so that for a
    name of at most forty characters the value starts at column 43; and
    the four method names are at most forty characters long, so that
    the four values of a report are aligned. *)
Theorem report_line_columns (name : string) (val : float) :
  substring 2 (String.length name) (report_line name val) = name
  /\ String.length (report_line name val)
     = 3 + Nat.max 40 (String.length name) + String.length (format_4f val)
  /\ substring (3 + Nat.max 40 (String.length name))
       (String.length (format_4f val)) (report_line name val)
     = format_4f val
  /\ (String.length name <= 40 ->
        substring 43 (String.length (format_4f val)) (report_line name val)
        = format_4f val)
  /\ Forall (fun m => String.length m <= 40) methods.
Proof.
  assert (Hfield : String.length ("  " ++ ljust 40 name ++ " ")
                   = 3 + Nat.max 40 (String.length name)).
  { unfold ljust. rewrite !length_append, length_spaces.
    change (String.length "  ") with 2. change (String.length " ") with 1. lia. }
  assert (Hline : report_line name val
                  = (("  " ++ ljust 40 name ++ " ") ++ format_4f val)%string).
  { unfold report_line. rewrite !append_assoc. reflexivity. }
  assert (Hval : substring (3 + Nat.max 40 (String.length name))
                   (String.length (format_4f val)) (report_line name val)
                 = format_4f val).
  { rewrite Hline, <- Hfield. apply substring_after. }
  split; [|split; [|split; [|split]]].
  - unfold report_line, ljust.
    change ("  " ++ (name ++ spaces (40 - String.length name)) ++ " " ++ format_4f val)%string
      with (String " " (String " "
              ((name ++ spaces (40 - String.length name)) ++ " " ++ format_4f val)))%string.
    cbn [substring]. rewrite append_assoc. apply substring_front.
  - rewrite Hline, length_append, Hfield. reflexivity.
  - exact Hval.
  - intros Hle. replace 43 with (3 + Nat.max 40 (String.length name)) by lia. exact Hval.
  - unfold methods. repeat constructor; vm_compute; intros H; discriminate H.
Qed.

End Columns.

(** ** The further theorems at concrete runs *)

Lemma estimate_effects_records_value_witness :
  exists r s3,
    estimate_effects (Demo.frame Demo.two_fail) 0 (Demo.ready Demo.two_fail) = (Ok r, s3)
    /\ Dict.get r "backdoor.propensity_score_weighting" = Some Demo.quarter.
Proof.
  eexists. eexists. split; [vm_compute; reflexivity|].
  refine (match estimate_effects_records_value (L := Demo.lib Demo.two_fail)
                  (Demo.frame Demo.two_fail) 0 (Demo.ready Demo.two_fail) tt tt _
                  [ "backdoor.propensity_score_matching" ]
                  "backdoor.propensity_score_weighting"
                  [ "backdoor.propensity_score_stratification";
                    "backdoor.linear_regression" ]
                  _ _ _ _ _ _ _ _ _ _ _ _ _ _
          with
          | ex_intro _ s2 (conj _ (conj _ (conj _ (conj _ Hget)))) => Hget _ _ _
          end).
  - vm_compute; reflexivity.
  - reflexivity.
  - vm_compute; reflexivity.
  - vm_compute; reflexivity.
  - vm_compute; reflexivity.
  - vm_compute; reflexivity.
  - vm_compute; reflexivity.
Defined.

(** Stratification returns an estimate without a value: [float] raises
    [TypeError], and the method gets [nan]. *)
Lemma boundary_covers_each_step_witness :
  exists s2,
    estimate_effects (Demo.frame Demo.two_fail) 0 (Demo.ready Demo.two_fail)
    = for_methods (L := Demo.lib Demo.two_fail) tt tt
        [ "backdoor.linear_regression" ]
        (Dict.set [ ("backdoor.propensity_score_matching", nan);
                    ("backdoor.propensity_score_weighting", Demo.quarter) ]
           "backdoor.propensity_score_stratification" nan)
        s2.
Proof.
  refine (match proj2 (proj2
                  (boundary_covers_each_step (L := Demo.lib Demo.two_fail)
                     (Demo.frame Demo.two_fail) 0 (Demo.ready Demo.two_fail) tt tt _
                     [ "backdoor.propensity_score_matching";
                       "backdoor.propensity_score_weighting" ]
                     "backdoor.propensity_score_stratification"
                     [ "backdoor.linear_regression" ]
                     _ _ Demo.TypeError _ _ _ _))
                  _ _ _ _ _ _ _ _
          with
          | ex_intro _ s2 (conj _ Hrun) => ex_intro _ s2 Hrun
          end).
  - vm_compute; reflexivity.
  - reflexivity.
  - vm_compute; reflexivity.
  - reflexivity.
  - vm_compute; reflexivity.
  - vm_compute; reflexivity.
  - vm_compute; reflexivity.
Defined.

Lemma estimate_effects_builds_model_witness :
  exists s0 : State (Demo.lib Demo.all_fine),
    called (trace s0)
    = called (trace (Demo.ready Demo.all_fine))
      ++ [ @OpToPydot (Demo.lib Demo.all_fine) 0;
           @OpToString (Demo.lib Demo.all_fine)
             [ ("Y11_Agecategory", "Y11_Q57");
               ("Y11_Agecategory", "Y11_MWIndex");
               ("Y11_Q57", "Y11_MWIndex") ];
           @OpCausalModel (Demo.lib Demo.all_fine)
             (Demo.frame Demo.all_fine) "Y11_Q57" "Y11_MWIndex" "digraph G {}";
           @OpIdentifyEffect (Demo.lib Demo.all_fine) tt ]
    /\ estimate_effects (Demo.frame Demo.all_fine) 0 (Demo.ready Demo.all_fine)
       = for_methods (L := Demo.lib Demo.all_fine) tt tt methods Dict.empty s0.
Proof.
  refine (match estimate_effects_builds_model (L := Demo.lib Demo.all_fine)
                  (Demo.frame Demo.all_fine) 0 (Demo.ready Demo.all_fine)
                  _ _ _ _ _ tt _ tt _ _ _ _ _ _
          with
          | ex_intro _ s0 (conj _ H) => ex_intro _ s0 H
          end).
  - vm_compute; reflexivity.
  - vm_compute; reflexivity.
  - vm_compute; reflexivity.
  - vm_compute; reflexivity.
  - vm_compute; reflexivity.
Defined.

(** The run is interrupted in the second method: two calls, both with
    the model and the estimand built before the loop. *)
Lemma estimate_calls_share_model_witness :
  exists k, k <= 4
    /\ estimate_args
         (trace (snd (estimate_effects (Demo.frame Demo.interrupted) 0
                        (Demo.ready Demo.interrupted))))
       = map (fun m => (tt, tt, m))
           (firstn k [ "backdoor.propensity_score_matching";
                       "backdoor.propensity_score_weighting";
                       "backdoor.propensity_score_stratification";
                       "backdoor.linear_regression" ]).
Proof.
  refine (match estimate_calls_share_model (L := Demo.lib Demo.interrupted)
                  (Demo.frame Demo.interrupted) 0 (Demo.ready Demo.interrupted)
                  tt tt
                  (snd (build_model (Demo.frame Demo.interrupted) 0
                          (Demo.ready Demo.interrupted)))
                  (fst (estimate_effects (Demo.frame Demo.interrupted) 0
                          (Demo.ready Demo.interrupted)))
                  (snd (estimate_effects (Demo.frame Demo.interrupted) 0
                          (Demo.ready Demo.interrupted)))
                  _ _
          with
          | ex_intro _ k (conj Hk (conj Hargs _)) => ex_intro _ k (conj Hk Hargs)
          end).
  - vm_compute; reflexivity.
  - vm_compute; reflexivity.
Defined.

(** The model constructor fails: nothing is printed. *)
Lemma report_all_or_nothing_witness :
  exists s',
    main (Demo.init Demo.bad_model) = (Raise Demo.KeyError, s') /\ stdout s' = [].
Proof.
  eexists. split; [vm_compute; reflexivity|].
  refine (proj1 (report_all_or_nothing (L := Demo.lib Demo.bad_model)
                   (Demo.init Demo.bad_model)) Demo.KeyError _ _).
  vm_compute; reflexivity.
Defined.

(** The graph file is missing: [open] is the last call made. *)
Lemma main_stops_at_first_failure_witness :
  exists s',
    main (Demo.init Demo.no_graph_file) = (Raise Demo.FileNotFoundError, s')
    /\ called (trace s')
       = [ @OpChooseColumns (Demo.lib Demo.no_graph_file);
           @OpPreprocess (Demo.lib Demo.no_graph_file)
             (Demo.frame Demo.no_graph_file) load_data_options;
           @OpOpen (Demo.lib Demo.no_graph_file)
             "/srv/eqls/graphs/full_causal.gpickle" ].
Proof.
  refine (proj1 (proj2 (proj2
            (main_stops_at_first_failure (L := Demo.lib Demo.no_graph_file)
               (Demo.init Demo.no_graph_file))))
            (Demo.frame Demo.no_graph_file)
            (snd (load_data (Demo.init Demo.no_graph_file)))
            Demo.FileNotFoundError _ _ _).
  - vm_compute; reflexivity.
  - vm_compute; reflexivity.
Defined.

Lemma load_graph_returns_fresh_reference_witness :
  exists graph s',
    load_graph (Demo.init Demo.all_fine) = (Ok graph, s')
    /\ deref graph s'
       = (Ok [ ("Y11_Agecategory", "Y11_Q57"); ("Y11_Agecategory", "Y11_MWIndex");
               ("Y11_Q57", "Y11_MWIndex") ], s').
Proof.
  refine (match load_graph_returns_fresh_reference (L := Demo.lib Demo.all_fine)
                  (Demo.init Demo.all_fine) _ _ _ _ _ _
          with
          | ex_intro _ graph (ex_intro _ s' (conj Hl (conj _ (conj _ (conj Hd _))))) =>
              ex_intro _ graph (ex_intro _ s' (conj Hl Hd))
          end).
  - vm_compute; reflexivity.
  - vm_compute; reflexivity.
Defined.

Lemma main_data_flow_witness :
  exists s0 : State (Demo.lib Demo.all_fine),
    called (trace s0)
    = [ @OpChooseColumns (Demo.lib Demo.all_fine);
        @OpPreprocess (Demo.lib Demo.all_fine)
          (Demo.frame Demo.all_fine) load_data_options;
        @OpOpen (Demo.lib Demo.all_fine) "/srv/eqls/graphs/full_causal.gpickle";
        @OpPickleLoad (Demo.lib Demo.all_fine) "/srv/eqls/graphs/full_causal.gpickle";
        @OpToPydot (Demo.lib Demo.all_fine) 0;
        @OpToString (Demo.lib Demo.all_fine)
          [ ("Y11_Agecategory", "Y11_Q57"); ("Y11_Agecategory", "Y11_MWIndex");
            ("Y11_Q57", "Y11_MWIndex") ];
        @OpCausalModel (Demo.lib Demo.all_fine)
          (Demo.frame Demo.all_fine) "Y11_Q57" "Y11_MWIndex" "digraph G {}";
        @OpIdentifyEffect (Demo.lib Demo.all_fine) tt ]
    /\ main (Demo.init Demo.all_fine)
       = estimate_and_report (L := Demo.lib Demo.all_fine) tt tt s0.
Proof.
  refine (match main_data_flow (L := Demo.lib Demo.all_fine)
                  (Demo.init Demo.all_fine)
                  _ _ _ _ _ _ _ _ _ _ _ _ tt _ tt _ _ _ _ _ _ _ _ _
          with
          | ex_intro _ s0 (conj _ (conj _ (conj _ H))) => ex_intro _ s0 H
          end).
  - vm_compute; reflexivity.
  - vm_compute; reflexivity.
  - vm_compute; reflexivity.
  - vm_compute; reflexivity.
  - vm_compute; reflexivity.
  - vm_compute; reflexivity.
  - vm_compute; reflexivity.
  - vm_compute; reflexivity.
Defined.

Lemma report_line_columns_witness :
  substring 43 6 (report_line "backdoor.linear_regression" Demo.quarter) = "0.2500".
Proof.
  refine (proj1 (proj2 (proj2 (proj2
            (report_line_columns "backdoor.linear_regression" Demo.quarter)))) _).
  vm_compute. repeat constructor.
Defined.
